(** * The application state machine of the YuniKorn Kubernetes shim

    A shallow embedding of [pkg/cache/application.go]: the application
    life cycle driven by a [looplab/fsm] state machine, the gang
    scheduling reservation protocol layered on top of it and the
    accumulation of the placeholder ask.

    Conventions.
    - Go strings are [string]; Go maps are [gmap]; slices are lists.
    - A method with a pointer receiver [app *Application] becomes a
      function that takes the application and returns the updated one.
    - Calls that leave the application (scheduler API, dispatcher, event
      recorder, placeholder manager, task capabilities, logger) are recorded,
      in program order, in a trace of [Effect]s.
    - The reader/writer lock is not modelled: every function below is one
      critical section. *)

From Stdlib Require Import ZArith Lia List String.
From stdpp Require Import base option list gmap strings sorting fin_maps.

Local Open Scope string_scope.
Local Open Scope list_scope.
Local Open Scope Z_scope.

(** ** [github.com/looplab/fsm]

    The state machine utility is a third-party library.  Its states and events
    are plain strings; the model keeps them so.  [NewFSM] flattens the event
    descriptors into a map keyed by (event, source) and sorts the callbacks
    by the shape of their name. *)
Module fsm.

Record EventDesc := {
  Name : string;
  Src : list string;
  Dst : string
}.

Definition Events := list EventDesc.

(** [transitions[eKey{e.Name, src}] = e.Dst], later descriptors overwrite
    earlier ones on the same key. *)
Definition transitions (evs : Events) : gmap (string * string) string :=
  foldl (λ m e, foldl (λ m src, <[(Name e, src) := Dst e]> m) m (Src e)) ∅ evs.

Definition allEvents (evs : Events) : list string := map Name evs.

Definition allStates (evs : Events) : list string :=
  flat_map (λ e, Src e ++ [Dst e]) evs.

Inductive callbackType :=
| callbackNone
| callbackBeforeEvent
| callbackLeaveState
| callbackEnterState
| callbackAfterEvent.

#[global] Instance callbackType_eq_dec : EqDecision callbackType.
Proof. solve_decision. Defined.

Definition HasPrefix (s p : string) : bool := String.prefix p s.

Definition TrimPrefix (s p : string) : string :=
  if HasPrefix s p
  then substring (String.length p) (String.length s - String.length p) s
  else s.

Definition isIn (x : string) (l : list string) : bool := bool_decide (x ∈ l).

(** The [switch] of [NewFSM] that turns a callback name into its key
    [cKey{target, callbackType}]. *)
Definition classify (evs : Events) (name : string) : string * callbackType :=
  if HasPrefix name "before_" then
    let target := TrimPrefix name "before_" in
    if String.eqb target "event" then ("", callbackBeforeEvent)
    else if isIn target (allEvents evs) then (target, callbackBeforeEvent)
    else (target, callbackNone)
  else if HasPrefix name "leave_" then
    let target := TrimPrefix name "leave_" in
    if String.eqb target "state" then ("", callbackLeaveState)
    else if isIn target (allStates evs) then (target, callbackLeaveState)
    else (target, callbackNone)
  else if HasPrefix name "enter_" then
    let target := TrimPrefix name "enter_" in
    if String.eqb target "state" then ("", callbackEnterState)
    else if isIn target (allStates evs) then (target, callbackEnterState)
    else (target, callbackNone)
  else if HasPrefix name "after_" then
    let target := TrimPrefix name "after_" in
    if String.eqb target "event" then ("", callbackAfterEvent)
    else if isIn target (allEvents evs) then (target, callbackAfterEvent)
    else (target, callbackNone)
  else
    if isIn name (allStates evs) then (name, callbackEnterState)
    else if isIn name (allEvents evs) then (name, callbackAfterEvent)
    else (name, callbackNone).

Inductive Error :=
| InvalidEventError (event state : string)
| UnknownEventError (event : string)
| NoTransitionError.

(** The [Error()] method of the three error types. *)
Definition Error_string (e : Error) : string :=
  match e with
  | InvalidEventError event state =>
      "event " +:+ event +:+ " inappropriate in current state " +:+ state
  | UnknownEventError event => "event " +:+ event +:+ " does not exist"
  | NoTransitionError => "no transition"
  end.

Section machine.
(** [A] is the object the callbacks close over, [Eff] what they do to
    the outside, [Arg] the type of the event arguments. *)
Context {A Eff Arg : Type}.
Context (Current : A → string) (SetState : string → A → A).

(** The [*fsm.Event] handed to every callback. *)
Record Event := {
  Event_name : string;
  Event_Src : string;
  Event_Dst : string;
  Args : list Arg
}.

Definition Callback := Event → A → A * list Eff.

Record FSM := {
  events : Events;
  callbacks : list (string * Callback)
}.

Definition findCallback (f : FSM) (target : string) (ty : callbackType)
  : option Callback :=
  snd <$> List.find
    (λ c, bool_decide (classify (events f) (fst c) = (target, ty)))
    (callbacks f).

(** [if fn, ok := f.callbacks[key]; ok { fn(e) }] *)
Definition call (f : FSM) (target : string) (ty : callbackType)
    (e : Event) (st : A * list Eff) : A * list Eff :=
  match findCallback f target ty with
  | Some fn => ((fn e st.1).1, st.2 ++ (fn e st.1).2)
  | None => st
  end.

Definition beforeEventCallbacks f e st :=
  call f "" callbackBeforeEvent e (call f (Event_name e) callbackBeforeEvent e st).
Definition leaveStateCallbacks f e (st : A * list Eff) :=
  call f "" callbackLeaveState e (call f (Current (fst st)) callbackLeaveState e st).
Definition enterStateCallbacks f e (st : A * list Eff) :=
  call f "" callbackEnterState e (call f (Current (fst st)) callbackEnterState e st).
Definition afterEventCallbacks f e st :=
  call f "" callbackAfterEvent e (call f (Event_name e) callbackAfterEvent e st).

Definition Can (f : FSM) (event : string) (a : A) : bool :=
  bool_decide (is_Some (transitions (events f) !! (event, Current a))).

(** The [Event] method of [FSM]: a synchronous transition.  No callback of the
    application cancels an event or sets [e.Err], so those paths of the
    library are left out. *)
Definition FSM_Event (f : FSM) (event : string) (args : list Arg) (a : A)
  : option Error * A * list Eff :=
  match transitions (events f) !! (event, Current a) with
  | None =>
      if isIn event (allEvents (events f))
      then (Some (InvalidEventError event (Current a)), a, [])
      else (Some (UnknownEventError event), a, [])
  | Some dst =>
      let e := {| Event_name := event; Event_Src := Current a;
                  Event_Dst := dst; Args := args |} in
      let st := beforeEventCallbacks f e (a, []) in
      if String.eqb (Current (fst st)) dst then
        let st := afterEventCallbacks f e st in
        (Some NoTransitionError, fst st, snd st)
      else
        let st := leaveStateCallbacks f e st in
        let st := (SetState dst (fst st), snd st) in
        let st := enterStateCallbacks f e st in
        let st := afterEventCallbacks f e st in
        (None, fst st, snd st)
  end.
End machine.

Arguments Event : clear implicits.
Arguments Callback : clear implicits.
Arguments FSM : clear implicits.
End fsm.

(** ** Constants and events of the shim ([pkg/common/events],
    [pkg/common/constants]) *)

(** Modelled from the spec: the event and state names of package [events],
    which is not among the sources.  Section 3 of the specification lists the
    thirteen application events, section 4.2 the eleven application states;
    the tests fix the spelling ("event RecoverApplication inappropriate in
    current state Submitted").  Both are string types in the code. *)
Module events.
Definition ApplicationEventType := string.

Definition SubmitApplication : ApplicationEventType := "SubmitApplication".
Definition RecoverApplication : ApplicationEventType := "RecoverApplication".
Definition AcceptApplication : ApplicationEventType := "AcceptApplication".
Definition TryReserve : ApplicationEventType := "TryReserve".
Definition UpdateReservation : ApplicationEventType := "UpdateReservation".
Definition RunApplication : ApplicationEventType := "RunApplication".
Definition RejectApplication : ApplicationEventType := "RejectApplication".
Definition CompleteApplication : ApplicationEventType := "CompleteApplication".
Definition FailApplication : ApplicationEventType := "FailApplication".
Definition KillApplication : ApplicationEventType := "KillApplication".
Definition KilledApplication : ApplicationEventType := "KilledApplication".
Definition ReleaseAppAllocation : ApplicationEventType := "ReleaseAppAllocation".
Definition ReleaseAppAllocationAsk : ApplicationEventType := "ReleaseAppAllocationAsk".

Definition InitTask : string := "InitTask".

Definition EnterState : string := "enter_state".

Module States.
Module Application.
Definition New := "New".
Definition Submitted := "Submitted".
Definition Recovering := "Recovering".
Definition Accepted := "Accepted".
Definition Reserving := "Reserving".
Definition Running := "Running".
Definition Rejected := "Rejected".
Definition Completed := "Completed".
Definition Killing := "Killing".
Definition Killed := "Killed".
Definition Failed := "Failed".
End Application.
Module Task.
Definition New := "New".
Definition Pending := "Pending".
Definition Scheduling := "Scheduling".
Definition Allocated := "Allocated".
Definition Rejected := "Rejected".
Definition Bound := "Bound".
Definition Killing := "Killing".
Definition Killed := "Killed".
Definition Failed := "Failed".
Definition Completed := "Completed".
End Task.
End States.

(** An event argument is an [interface{}]: a string, or something else. *)
Inductive Arg :=
| StringArg (s : string)
| OtherArg (v : Z).

Definition asString (a : Arg) : option string :=
  match a with StringArg s => Some s | OtherArg _ => None end.

(** Modelled from the spec: [events.GetEventArgsAsStrings], which is not
    among the sources.  The specification only says that malformed arguments
    are reported to the handler as an error; here an argument list is well
    formed when it has as many entries as the handler's result array and all
    of them are strings.  [inl] carries the error, [inr] the filled array. *)
Definition GetEventArgsAsStrings (n : nat) (generic : list Arg)
  : string + list string :=
  if bool_decide (length generic = n) then
    match mapM asString generic with
    | Some result => inr result
    | None => inl "failed to parse event arguments, expecting string type"
    end
  else inl "invalid length of arguments".
End events.

(** Modelled from the spec: the constants of package [constants], which is
    not among the sources: the default partition every application is
    created in, and the scheduler's names of the memory and CPU dimensions
    (the ones [TestSetTaskGroupsAndSchedulingPolicy] builds its expected ask
    from). *)
Module constants.
Definition DefaultPartition : string := "default".
Definition Memory : string := "memory".
Definition CPU : string := "vcore".
End constants.

(** The interface [events.ApplicationEvent]. *)
Record ApplicationEvent := {
  GetApplicationID_ev : string;
  GetEvent : events.ApplicationEventType;
  GetArgs : list events.Arg
}.

(** Modelled from the spec: the event constructors of the cache package
    (section 6 gives the argument order: [Fail(appID, message)],
    [ReleaseAllocationAsk(appID, taskID, terminationType)],
    [ReleaseAllocation(appID, terminationType, allocationID)] read back by
    the handler as allocation identifier then termination type). *)
Definition NewSimpleApplicationEvent (appID : string)
    (eventType : events.ApplicationEventType) : ApplicationEvent :=
  {| GetApplicationID_ev := appID; GetEvent := eventType; GetArgs := [] |}.

Definition NewSubmitApplicationEvent (appID : string) : ApplicationEvent :=
  NewSimpleApplicationEvent appID events.SubmitApplication.

Definition NewRunApplicationEvent (appID : string) : ApplicationEvent :=
  NewSimpleApplicationEvent appID events.RunApplication.

Definition NewFailApplicationEvent (appID message : string) : ApplicationEvent :=
  {| GetApplicationID_ev := appID; GetEvent := events.FailApplication;
     GetArgs := [events.StringArg message] |}.

Definition NewReleaseAppAllocationEvent (appID terminationType allocationUUID : string)
  : ApplicationEvent :=
  {| GetApplicationID_ev := appID; GetEvent := events.ReleaseAppAllocation;
     GetArgs := [events.StringArg allocationUUID; events.StringArg terminationType] |}.

Definition NewReleaseAppAllocationAskEvent (appID terminationType taskID : string)
  : ApplicationEvent :=
  {| GetApplicationID_ev := appID; GetEvent := events.ReleaseAppAllocationAsk;
     GetArgs := [events.StringArg taskID; events.StringArg terminationType] |}.

(** ** Resources *)

(** [k8s.io/apimachinery/pkg/api/resource]: a quantity is a decimal number
    [unscaled * 10 ^ scale].  The 64-bit range of the library is not
    modelled. *)
Module resource.
Record Quantity := { unscaled : Z; scale : Z }.

Definition Milli : Z := -3.
Definition Mega : Z := 6.

(** [ScaledValue(s)] is [ceil (q / 10 ^ s)]. *)
Definition ScaledValue (q : Quantity) (s : Z) : Z :=
  let d := scale q - s in
  if 0 <=? d then unscaled q * 10 ^ d
  else - ((- unscaled q) `div` (10 ^ (- d))).

Definition MilliValue (q : Quantity) : Z := ScaledValue q Milli.
Definition Value (q : Quantity) : Z := ScaledValue q 0.

(** [MustParse("<n>m")] and [MustParse("<n>Mi")]. *)
Definition milli (n : Z) : Quantity := {| unscaled := n; scale := -3 |}.
Definition Mi (n : Z) : Quantity := {| unscaled := n * 2 ^ 20; scale := 0 |}.
End resource.

(** The scheduler interface: a resource is a map from resource name to an
    integer value; a nil resource pointer is [None]. *)
Module si.
Abbreviation Resource := (gmap string Z).

Record AddApplicationRequest := {
  ApplicationID : string;
  QueueName : string;
  PartitionName : string;
  Ugi_User : string;
  Tags : gmap string string;
  PlaceholderAsk : option Resource;
  ExecutionTimeoutMilliSeconds : Z
}.

Record UpdateRequest := {
  NewApplications : list AddApplicationRequest;
  RmID : string
}.
End si.

(** Modelled from the spec: the types of the API package [v1alpha1], which is
    not among the sources.  Section 3: a scheduling policy is a variant with a
    parameter map; a task group has a name, a minimum member count (an
    [int32] in the code), a minimum resource per member, and node selector
    and toleration hints. *)
Module v1alpha1.
Record SchedulingPolicy := {
  Type_ : string;
  Parameters : gmap string string
}.

Record TaskGroup := {
  Name : string;
  MinMember : Z;
  MinResource : gmap string resource.Quantity;
  NodeSelector : gmap string string;
  Tolerations : list string
}.
End v1alpha1.

(** Two's complement wrap-around of Go's [int64]. *)
Definition wrap64 (z : Z) : Z := (z + 2 ^ 63) `mod` 2 ^ 64 - 2 ^ 63.

Module common.
(** Modelled from the spec: the scheduler's name of a resource dimension.
    Kubernetes calls the CPU dimension "cpu", the scheduler "vcore"; the
    tests expect the ask under [constants.CPU] and [constants.Memory]. *)
Definition siName (resName : string) : string :=
  if String.eqb resName "cpu" then constants.CPU
  else if String.eqb resName "memory" then constants.Memory
  else resName.

(** Modelled from the spec: the rounding of section 4.2, "applied per
    resource dimension using that dimension's native unit granularity":
    milli-units for CPU, mega-units for memory, whole units for anything
    else. *)
Definition roundUpToWholeUnit (resName : string) (q : resource.Quantity) : Z :=
  if String.eqb resName "cpu" then resource.MilliValue q
  else if String.eqb resName "memory" then resource.ScaledValue q resource.Mega
  else resource.Value q.

(** Modelled from the spec: [common.GetTGResource], which is not among the
    sources.  Section 4.2: per resource dimension the contribution of a task
    group is the per-member quantity rounded up to a whole unit, times the
    member count.  The 64-bit range of the values is not modelled. *)
Definition GetTGResource (resMap : gmap string resource.Quantity) (members : Z)
  : si.Resource :=
  map_fold (λ resName q result,
              <[siName resName := members * roundUpToWholeUnit resName q]> result)
           ∅ resMap.

(** Modelled from the spec: [common.Add], which is not among the sources:
    the sum of two resources per dimension ("summed into the running
    total"); a nil operand counts as the empty resource and the result is
    never nil. *)
Definition Add (left right : option si.Resource) : option si.Resource :=
  Some (union_with (λ l r, Some (l + r)) (default ∅ left) (default ∅ right)).

(** The value of a dimension, zero where it is absent. *)
Definition quantityOf (r : option si.Resource) (k : string) : Z :=
  default 0 (default ∅ r !! k).
End common.

Module utils.
(** Modelled from the spec: [utils.TaskGroupInstanceCountMap], which is not
    among the sources: a count per task group name (section 4.2: "per task
    group, the desired member count versus the actual count").  Counts are
    unbounded integers here. *)
Abbreviation TaskGroupInstanceCountMap := (gmap string Z).

Definition NewTaskGroupInstanceCountMap : TaskGroupInstanceCountMap := ∅.

(** Modelled from the spec: [Add] accumulates onto the count already recorded
    under the name. *)
Definition Add (taskGroupName : string) (num : Z)
    (t : TaskGroupInstanceCountMap) : TaskGroupInstanceCountMap :=
  <[taskGroupName := default 0 (t !! taskGroupName) + num]> t.

(** Modelled from the spec: [AddOne] counts one more instance. *)
Definition AddOne (taskGroupName : string)
    (t : TaskGroupInstanceCountMap) : TaskGroupInstanceCountMap :=
  Add taskGroupName 1 t.

(** Modelled from the spec: [Equals] compares the receiver, the desired
    counts, with the argument group by group (section 4.2: "If desired equals
    actual for every group (exact equality, not at least)"): every group the
    receiver has a count for has exactly that count in the argument, where a
    group the argument records nothing for counts zero. *)
Definition Equals (t target : TaskGroupInstanceCountMap) : bool :=
  bool_decide (map_Forall (λ taskGroupName num,
                             default 0 (target !! taskGroupName) = num) t).
End utils.

(** ** Tasks *)

(** Modelled from the spec: the task capability surface of section 6.  The
    task type lives in [task.go], which is not among the sources; the
    application reads the fields below and calls the capabilities
    [sanityCheckBeforeScheduling], [handle], [setTaskTerminationType] and
    [DeleteTaskPod]. *)
Module Task.
Record t := {
  taskID : string;
  alias : string;
  applicationID : string;
  state : string;
  placeholder : bool;
  taskGroupName : string;
  allocationUUID : string;
  createTime : Z;
  terminationType : string
}.

Definition GetTaskState (task : t) : string := state task.
Definition IsPlaceholder (task : t) : bool := placeholder task.

Definition setTaskTerminationType (term : string) (task : t) : t :=
  {| taskID := taskID task; alias := alias task;
     applicationID := applicationID task; state := state task;
     placeholder := placeholder task; taskGroupName := taskGroupName task;
     allocationUUID := allocationUUID task; createTime := createTime task;
     terminationType := term |}.
End Task.

(** ** The application *)

(** [taskMap] maps a task identifier to the task stored under it; the map
    owns its tasks (they enter through [addTask] under their own identifier),
    so a task pointer of the code is a key of the map here.  [sm] is the
    current state of the application's state machine, [schedulerAPI] the
    [Update] method of the scheduler interface ([None] is a nil error), and a
    nil [placeholderAsk] is [None]. *)
Record Application := {
  applicationID : string;
  queue : string;
  partition : string;
  user : string;
  taskMap : gmap string Task.t;
  tags : gmap string string;
  schedulingPolicy : v1alpha1.SchedulingPolicy;
  taskGroups : list v1alpha1.TaskGroup;
  placeholderOwnerReferences : list string;
  sm : string;
  schedulerAPI : si.UpdateRequest → option string;
  placeholderAsk : option si.Resource;
  placeholderTimeoutInSec : Z
}.

Definition with_taskMap (m : gmap string Task.t) (app : Application) :=
  {| applicationID := applicationID app; queue := queue app;
     partition := partition app; user := user app; taskMap := m;
     tags := tags app; schedulingPolicy := schedulingPolicy app;
     taskGroups := taskGroups app;
     placeholderOwnerReferences := placeholderOwnerReferences app;
     sm := sm app; schedulerAPI := schedulerAPI app;
     placeholderAsk := placeholderAsk app;
     placeholderTimeoutInSec := placeholderTimeoutInSec app |}.

Definition with_schedulingPolicy (p : v1alpha1.SchedulingPolicy) (app : Application) :=
  {| applicationID := applicationID app; queue := queue app;
     partition := partition app; user := user app; taskMap := taskMap app;
     tags := tags app; schedulingPolicy := p;
     taskGroups := taskGroups app;
     placeholderOwnerReferences := placeholderOwnerReferences app;
     sm := sm app; schedulerAPI := schedulerAPI app;
     placeholderAsk := placeholderAsk app;
     placeholderTimeoutInSec := placeholderTimeoutInSec app |}.

Definition with_taskGroups (tgs : list v1alpha1.TaskGroup) (app : Application) :=
  {| applicationID := applicationID app; queue := queue app;
     partition := partition app; user := user app; taskMap := taskMap app;
     tags := tags app; schedulingPolicy := schedulingPolicy app;
     taskGroups := tgs;
     placeholderOwnerReferences := placeholderOwnerReferences app;
     sm := sm app; schedulerAPI := schedulerAPI app;
     placeholderAsk := placeholderAsk app;
     placeholderTimeoutInSec := placeholderTimeoutInSec app |}.

Definition with_placeholderOwnerReferences (refs : list string) (app : Application) :=
  {| applicationID := applicationID app; queue := queue app;
     partition := partition app; user := user app; taskMap := taskMap app;
     tags := tags app; schedulingPolicy := schedulingPolicy app;
     taskGroups := taskGroups app;
     placeholderOwnerReferences := refs;
     sm := sm app; schedulerAPI := schedulerAPI app;
     placeholderAsk := placeholderAsk app;
     placeholderTimeoutInSec := placeholderTimeoutInSec app |}.

Definition with_sm (s : string) (app : Application) :=
  {| applicationID := applicationID app; queue := queue app;
     partition := partition app; user := user app; taskMap := taskMap app;
     tags := tags app; schedulingPolicy := schedulingPolicy app;
     taskGroups := taskGroups app;
     placeholderOwnerReferences := placeholderOwnerReferences app;
     sm := s; schedulerAPI := schedulerAPI app;
     placeholderAsk := placeholderAsk app;
     placeholderTimeoutInSec := placeholderTimeoutInSec app |}.

Definition with_placeholderAsk (ask : option si.Resource) (app : Application) :=
  {| applicationID := applicationID app; queue := queue app;
     partition := partition app; user := user app; taskMap := taskMap app;
     tags := tags app; schedulingPolicy := schedulingPolicy app;
     taskGroups := taskGroups app;
     placeholderOwnerReferences := placeholderOwnerReferences app;
     sm := sm app; schedulerAPI := schedulerAPI app;
     placeholderAsk := ask;
     placeholderTimeoutInSec := placeholderTimeoutInSec app |}.

Definition with_placeholderTimeoutInSec (timeout : Z) (app : Application) :=
  {| applicationID := applicationID app; queue := queue app;
     partition := partition app; user := user app; taskMap := taskMap app;
     tags := tags app; schedulingPolicy := schedulingPolicy app;
     taskGroups := taskGroups app;
     placeholderOwnerReferences := placeholderOwnerReferences app;
     sm := sm app; schedulerAPI := schedulerAPI app;
     placeholderAsk := placeholderAsk app;
     placeholderTimeoutInSec := timeout |}.

(** What the application does to its collaborators.  A goroutine started by
    a callback is recorded where it is started; its outcome comes back later
    as a dispatched event. *)
Inductive Goroutine :=
| cleanUp (appID : string)
    (** [getPlaceholderManager().cleanUp(app)] *)
| createAppPlaceholders (appID : string).
    (** [createAppPlaceholders(app)]; on failure [cleanUp] and dispatch Run *)

Inductive Effect :=
| Log (level message : string)
| SchedulerUpdate (request : si.UpdateRequest)
| Dispatch (ev : ApplicationEvent)
| Go (g : Goroutine)
| RecorderEvent (task eventtype reason message : string)
| SanityCheckBeforeScheduling (task : string)
| TaskHandle (task event : string)
| DeleteTaskPod (task : string).

Definition Trace := list Effect.

Definition GetApplicationState (app : Application) : string := sm app.

(** [SetState] is only for testing in the code; the state machine uses the
    same assignment for its transitions. *)
Definition SetState (state : string) (app : Application) : Application :=
  with_sm state app.

Definition GetApplicationID (app : Application) : string := applicationID app.
Definition GetQueue (app : Application) : string := queue app.
Definition GetUser (app : Application) : string := user app.
Definition GetTags (app : Application) : gmap string string := tags app.

Definition GetTask (taskID : string) (app : Application) : string + Task.t :=
  match taskMap app !! taskID with
  | Some task => inr task
  | None => inl ("task " +:+ taskID +:+ " doesn't exist in application "
                 +:+ applicationID app)
  end.

Definition setSchedulingPolicy (policy : v1alpha1.SchedulingPolicy)
    (app : Application) : Application :=
  with_schedulingPolicy policy app.

Definition getSchedulingPolicy (app : Application) := schedulingPolicy app.

Definition setTaskGroups (taskGroups : list v1alpha1.TaskGroup)
    (app : Application) : Application :=
  let app := with_taskGroups taskGroups app in
  foldl (λ app taskGroup,
           with_placeholderAsk
             (common.Add (placeholderAsk app)
                (Some (common.GetTGResource (v1alpha1.MinResource taskGroup)
                         (v1alpha1.MinMember taskGroup))))
             app)
        app taskGroups.

Definition getPlaceholderAsk (app : Application) : option si.Resource :=
  placeholderAsk app.

Definition getTaskGroups (app : Application) := taskGroups app.

Definition setOwnReferences (ref : list string) (app : Application) : Application :=
  with_placeholderOwnerReferences ref app.

Definition addTask (task : Task.t) (app : Application) : Application :=
  match taskMap app !! Task.taskID task with
  | Some _ => app
  | None => with_taskMap (<[Task.taskID task := task]> (taskMap app)) app
  end.

Definition removeTask (taskID : string) (app : Application)
  : option string * Application * Trace :=
  match taskMap app !! taskID with
  | Some _ => (None, with_taskMap (delete taskID (taskMap app)) app,
               [Log "info" "task removed"])
  | None => (Some ("task " +:+ taskID +:+ " is not found in application "
                   +:+ applicationID app), app, [])
  end.

(** [getTasks]: the tasks in the given state, sorted on creation time.  A
    task is returned with the key it is stored under.  The order among tasks
    created at the same instant is not fixed by the code. *)
Definition createdBefore (l r : string * Task.t) : Prop :=
  Task.createTime l.2 ≤ Task.createTime r.2.

#[global] Instance createdBefore_dec : RelDecision createdBefore.
Proof. intros l r. unfold createdBefore. apply _. Defined.

Definition getTasks (state : string) (app : Application) : list (string * Task.t) :=
  merge_sort createdBefore
    (filter (λ kt, Task.GetTaskState kt.2 = state) (map_to_list (taskMap app))).

Definition GetPendingTasks := getTasks events.States.Task.Pending.
Definition GetNewTasks := getTasks events.States.Task.New.
Definition GetAllocatedTasks := getTasks events.States.Task.Allocated.

Definition SetPlaceholderTimeout (timeout : Z) (app : Application) : Application :=
  with_placeholderTimeoutInSec timeout app.

Definition NewApplication (appID queueName user : string)
    (tags : gmap string string) (scheduler : si.UpdateRequest → option string)
  : Application :=
  {| applicationID := appID;
     queue := queueName;
     partition := constants.DefaultPartition;
     user := user;
     taskMap := ∅;
     tags := tags;
     schedulingPolicy := {| v1alpha1.Type_ := ""; v1alpha1.Parameters := ∅ |};
     taskGroups := [];
     placeholderOwnerReferences := [];
     sm := events.States.Application.New;
     schedulerAPI := scheduler;
     placeholderAsk := None;
     placeholderTimeoutInSec := 0 |}.

Module states := events.States.Application.

(** The transition table handed to [fsm.NewFSM] by [NewApplication]. *)
Definition appEvents : fsm.Events :=
  [ {| fsm.Name := events.SubmitApplication;
       fsm.Src := [states.New];
       fsm.Dst := states.Submitted |};
    {| fsm.Name := events.RecoverApplication;
       fsm.Src := [states.New];
       fsm.Dst := states.Recovering |};
    {| fsm.Name := events.AcceptApplication;
       fsm.Src := [states.Submitted; states.Recovering];
       fsm.Dst := states.Accepted |};
    {| fsm.Name := events.TryReserve;
       fsm.Src := [states.Accepted];
       fsm.Dst := states.Reserving |};
    {| fsm.Name := events.UpdateReservation;
       fsm.Src := [states.Reserving];
       fsm.Dst := states.Reserving |};
    {| fsm.Name := events.RunApplication;
       fsm.Src := [states.Accepted; states.Reserving; states.Running];
       fsm.Dst := states.Running |};
    {| fsm.Name := events.ReleaseAppAllocation;
       fsm.Src := [states.Running];
       fsm.Dst := states.Running |};
    {| fsm.Name := events.ReleaseAppAllocation;
       fsm.Src := [states.Failed];
       fsm.Dst := states.Failed |};
    {| fsm.Name := events.ReleaseAppAllocationAsk;
       fsm.Src := [states.Running; states.Accepted; states.Reserving];
       fsm.Dst := states.Running |};
    {| fsm.Name := events.ReleaseAppAllocationAsk;
       fsm.Src := [states.Failed];
       fsm.Dst := states.Failed |};
    {| fsm.Name := events.CompleteApplication;
       fsm.Src := [states.Running];
       fsm.Dst := states.Completed |};
    {| fsm.Name := events.RejectApplication;
       fsm.Src := [states.Submitted];
       fsm.Dst := states.Rejected |};
    {| fsm.Name := events.FailApplication;
       fsm.Src := [states.Submitted; states.Rejected; states.Accepted;
                   states.Running; states.Reserving];
       fsm.Dst := states.Failed |};
    {| fsm.Name := events.KillApplication;
       fsm.Src := [states.Accepted; states.Running; states.Reserving];
       fsm.Dst := states.Killing |};
    {| fsm.Name := events.KilledApplication;
       fsm.Src := [states.Killing];
       fsm.Dst := states.Killed |} ].

Definition AppCallback := fsm.Callback Application Effect events.Arg.
Definition AppFsmEvent := fsm.Event events.Arg.

Section Lifecycle.

(** [conf.GetSchedulerConf().ClusterID], and the two task capabilities the
    scheduling loop calls: the precondition check ([None] is a nil error) and
    the task's own [handle], which returns the task as its state machine
    leaves it together with the error it reports. *)
Context (ClusterID : string).
Context (sanityCheckBeforeScheduling : Task.t → option string).
Context (taskHandle : Task.t → string → Task.t * option string).

Definition addApplicationRequest (app : Application) (ask : option si.Resource)
  : si.UpdateRequest :=
  {| si.NewApplications :=
       [ {| si.ApplicationID := applicationID app;
            si.QueueName := queue app;
            si.PartitionName := partition app;
            si.Ugi_User := user app;
            si.Tags := tags app;
            si.PlaceholderAsk := ask;
            si.ExecutionTimeoutMilliSeconds :=
              wrap64 (placeholderTimeoutInSec app * 1000) |} ];
     si.RmID := ClusterID |}.

(** Both callbacks end the same way: a failed update is turned into a Fail
    event. *)
Definition submitted (app : Application) (request : si.UpdateRequest) : Trace :=
  SchedulerUpdate request ::
  match schedulerAPI app request with
  | Some err =>
      [Log "warn" "failed to submit app";
       Dispatch (NewFailApplicationEvent (applicationID app) err)]
  | None => []
  end.

Definition handleSubmitApplicationEvent : AppCallback := λ event app,
  (app, Log "info" "handle app submission" ::
        submitted app (addApplicationRequest app (placeholderAsk app))).

(** The request of the recovery path leaves [PlaceholderAsk] out. *)
Definition handleRecoverApplicationEvent : AppCallback := λ event app,
  (app, Log "info" "handle app recovering" ::
        submitted app (addApplicationRequest app None)).

Definition postAppAccepted (app : Application) : Application * Trace :=
  let numAllocatedTasks := length (getTasks events.States.Task.Allocated app) in
  (app,
   Log "debug" "postAppAccepted on cached app" ::
   if bool_decide (length (taskGroups app) ≠ 0%nat) &&
      bool_decide (numAllocatedTasks = 0%nat)
   then
     let ev := NewSimpleApplicationEvent (applicationID app) events.TryReserve in
     [Log "info" "app has taskGroups defined, trying to reserve resources for gang members";
      Dispatch ev;
      Dispatch ev]
   else
     let ev := NewRunApplicationEvent (applicationID app) in
     [Dispatch ev]).

Definition onReserving : AppCallback := λ event app,
  (app, [Go (createAppPlaceholders (applicationID app))]).

Definition desireCounts (app : Application) : utils.TaskGroupInstanceCountMap :=
  foldl (λ counts tg, utils.Add (v1alpha1.Name tg) (v1alpha1.MinMember tg) counts)
        utils.NewTaskGroupInstanceCountMap (taskGroups app).

Definition actualCounts (app : Application) : utils.TaskGroupInstanceCountMap :=
  foldl (λ counts kt,
           if Task.placeholder kt.2
           then utils.AddOne (Task.taskGroupName kt.2) counts
           else counts)
        utils.NewTaskGroupInstanceCountMap
        (getTasks events.States.Task.Bound app).

Definition onReservationStateChange : AppCallback := λ event app,
  (app,
   if utils.Equals (desireCounts app) (actualCounts app)
   then [Dispatch (NewRunApplicationEvent (applicationID app))]
   else []).

Definition handleRejectApplicationEvent : AppCallback := λ event app,
  (app,
   [Log "info" "app is rejected by scheduler";
    Dispatch (NewFailApplicationEvent (applicationID app)
                ("application " +:+ applicationID app
                 +:+ " is rejected by scheduler"))]).

Definition handleCompleteApplicationEvent : AppCallback := λ event app,
  (app, [Go (cleanUp (applicationID app))]).

Definition handleFailApplicationEvent : AppCallback := λ event app,
  (app,
   Go (cleanUp (applicationID app)) ::
   match events.GetEventArgsAsStrings 1 (fsm.Args event) with
   | inl err => [Log "error" "fail to parse event arg"]
   | inr eventArgs =>
       let errMess := nth 0 eventArgs "" in
       let unalloc := getTasks events.States.Task.New app in
       let unalloc := unalloc ++ getTasks events.States.Task.Pending app in
       let unalloc := unalloc ++ getTasks events.States.Task.Scheduling app in
       map (λ kt : string * Task.t,
              RecorderEvent kt.1 "Warning" "ApplicationFailed"
                ("Application " +:+ applicationID app
                 +:+ " scheduling failed, reason: " +:+ errMess))
           unalloc
   end).

(** The error [DeleteTaskPod] may return is only logged by both release
    handlers; the trace records the request. *)
Definition handleReleaseAppAllocationEvent : AppCallback := λ event app,
  match events.GetEventArgsAsStrings 2 (fsm.Args event) with
  | inl err => (app, [Log "error" "fail to parse event arg"])
  | inr eventArgs =>
      let allocUUID := nth 0 eventArgs "" in
      let terminationTypeStr := nth 1 eventArgs "" in
      let hit (task : Task.t) :=
        bool_decide (Task.allocationUUID task = allocUUID) in
      (with_taskMap
         ((λ task, if hit task
                   then Task.setTaskTerminationType terminationTypeStr task
                   else task) <$> taskMap app)
         app,
       Log "info" "try to release pod from application" ::
       map (λ kt : string * Task.t, DeleteTaskPod kt.1)
           (filter (λ kt, hit kt.2 = true) (map_to_list (taskMap app))))
  end.

Definition handleReleaseAppAllocationAskEvent : AppCallback := λ event app,
  match events.GetEventArgsAsStrings 2 (fsm.Args event) with
  | inl err => (app, [Log "error" "fail to parse event arg"])
  | inr eventArgs =>
      let taskID := nth 0 eventArgs "" in
      let terminationTypeStr := nth 1 eventArgs "" in
      match taskMap app !! taskID with
      | Some task =>
          let task := Task.setTaskTerminationType terminationTypeStr task in
          (with_taskMap (<[taskID := task]> (taskMap app)) app,
           Log "info" "try to release pod from application" ::
           if Task.IsPlaceholder task
           then [DeleteTaskPod taskID]
           else [Log "warn" "skip to release allocation ask, ask is not a placeholder"])
      | None =>
          (app, [Log "info" "try to release pod from application";
                 Log "warn" "task not found"])
      end
  end.

Definition enterState : AppCallback := λ event app,
  (app, [Log "debug" "shim app state transition"]).

(** The state machine built by [NewApplication]. *)
Definition appFSM : fsm.FSM Application Effect events.Arg :=
  {| fsm.events := appEvents;
     fsm.callbacks :=
       [ (events.SubmitApplication, handleSubmitApplicationEvent);
         (events.RecoverApplication, handleRecoverApplicationEvent);
         (events.RejectApplication, handleRejectApplicationEvent);
         (events.CompleteApplication, handleCompleteApplicationEvent);
         (events.FailApplication, handleFailApplicationEvent);
         (events.UpdateReservation, onReservationStateChange);
         (states.Reserving, onReserving);
         (events.ReleaseAppAllocation, handleReleaseAppAllocationEvent);
         (events.ReleaseAppAllocationAsk, handleReleaseAppAllocationAskEvent);
         (events.EnterState, enterState) ] |}.

Definition sm_Event (event : string) (args : list events.Arg) (app : Application)
  : option fsm.Error * Application * Trace :=
  fsm.FSM_Event GetApplicationState SetState appFSM event args app.

(** [handle]: the transition, with the library's "no transition" error of a
    transition into the same state turned into success. *)
Definition handle (ev : ApplicationEvent) (app : Application)
  : option fsm.Error * Application * Trace :=
  let '(err, app, effs) := sm_Event (GetEvent ev) (GetArgs ev) app in
  match err with
  | Some e =>
      if negb (String.eqb (fsm.Error_string e) "no transition")
      then (Some e, app, effs)
      else (None, app, effs)
  | None => (None, app, effs)
  end.

Definition canHandle (ev : ApplicationEvent) (app : Application) : bool :=
  fsm.Can GetApplicationState appFSM (GetEvent ev) app.

Definition TriggerAppRecovery (app : Application) :=
  handle (NewSimpleApplicationEvent (applicationID app) events.RecoverApplication) app.

(** One round of the loop of [scheduleTasks] on a task of [GetNewTasks]. *)
Definition scheduleTask (taskScheduleCondition : Task.t → bool)
    (acc : Application * Trace) (kt : string * Task.t) : Application * Trace :=
  let '(key, task) := kt in
  if taskScheduleCondition task then
    match sanityCheckBeforeScheduling task with
    | None =>
        let '(task', handleErr) := taskHandle task events.InitTask in
        (with_taskMap (<[key := task']> (taskMap acc.1)) acc.1,
         acc.2 ++ [SanityCheckBeforeScheduling key; TaskHandle key events.InitTask]
               ++ match handleErr with
                  | Some _ => [Log "warn" "init task failed"]
                  | None => []
                  end)
    | Some err =>
        (acc.1,
         acc.2 ++ [SanityCheckBeforeScheduling key;
                   RecorderEvent key "Warning" "FailedScheduling" err;
                   Log "debug" "task is not ready for scheduling"])
    end
  else acc.

Definition scheduleTasks (taskScheduleCondition : Task.t → bool)
    (app : Application) : Application * Trace :=
  foldl (scheduleTask taskScheduleCondition) (app, []) (GetNewTasks app).

Definition Schedule (app : Application) : Application * Trace :=
  let state := GetApplicationState app in
  if String.eqb state states.New then
    let ev := NewSubmitApplicationEvent (GetApplicationID app) in
    let '(err, app, effs) := handle ev app in
    (app, effs ++ match err with
                  | Some _ => [Log "warn" "failed to handle SUBMIT app event"]
                  | None => []
                  end)
  else if String.eqb state states.Accepted then
    postAppAccepted app
  else if String.eqb state states.Reserving then
    scheduleTasks (λ t, Task.placeholder t) app
  else if String.eqb state states.Running then
    scheduleTasks (λ t, negb (Task.placeholder t)) app
  else
    (app, [Log "debug" "skipping scheduling application"]).

End Lifecycle.

(** * Definitions on the side of the specification *)

(** ** The transition table of the specification *)

(** Section 4.2 of the specification, row by row: event, legal sources,
    destination. *)
Definition table_4_2 : list (string * list string * string) :=
  [ (events.SubmitApplication, [states.New], states.Submitted);
    (events.RecoverApplication, [states.New], states.Recovering);
    (events.AcceptApplication, [states.Submitted; states.Recovering], states.Accepted);
    (events.TryReserve, [states.Accepted], states.Reserving);
    (events.UpdateReservation, [states.Reserving], states.Reserving);
    (events.RunApplication, [states.Accepted; states.Reserving; states.Running],
     states.Running);
    (events.ReleaseAppAllocation, [states.Running], states.Running);
    (events.ReleaseAppAllocation, [states.Failed], states.Failed);
    (events.ReleaseAppAllocationAsk,
     [states.Running; states.Accepted; states.Reserving], states.Running);
    (events.ReleaseAppAllocationAsk, [states.Failed], states.Failed);
    (events.CompleteApplication, [states.Running], states.Completed);
    (events.RejectApplication, [states.Submitted], states.Rejected);
    (events.FailApplication,
     [states.Submitted; states.Rejected; states.Accepted; states.Running;
      states.Reserving], states.Failed);
    (events.KillApplication, [states.Accepted; states.Running; states.Reserving],
     states.Killing);
    (events.KilledApplication, [states.Killing], states.Killed) ].

(** The (event, state, destination) triples the table lists. *)
Definition pairs_4_2 : list (string * string * string) :=
  flat_map (λ row, map (λ src, (row.1.1, src, row.2)) row.1.2) table_4_2.

Definition listed (event state dst : string) : Prop :=
  (event, state, dst) ∈ pairs_4_2.

(** The events of the life cycle: the names the table has a row for. *)
Definition lifecycleEvents : list string :=
  [ events.SubmitApplication; events.RecoverApplication; events.AcceptApplication;
    events.TryReserve; events.UpdateReservation; events.RunApplication;
    events.ReleaseAppAllocation; events.ReleaseAppAllocationAsk;
    events.CompleteApplication; events.RejectApplication; events.FailApplication;
    events.KillApplication; events.KilledApplication ].

(** The legal transitions that stay in the state they start from. *)
Definition selfLoops : list (string * string) :=
  [ (events.UpdateReservation, states.Reserving);
    (events.RunApplication, states.Running);
    (events.ReleaseAppAllocation, states.Running);
    (events.ReleaseAppAllocation, states.Failed);
    (events.ReleaseAppAllocationAsk, states.Running);
    (events.ReleaseAppAllocationAsk, states.Failed) ].

(** ** Fixtures of the test suite *)

(** [newMockSchedulerAPI]: every update succeeds. *)
Definition mockSchedulerAPI : si.UpdateRequest → option string := λ _, None.

Definition testClusterID : string := "my-kube-cluster".

(** [NewApplication("app00001", "root.abc", "testuser", ...)] *)
Definition app00001 : Application :=
  NewApplication "app00001" "root.abc" "testuser" ∅ mockSchedulerAPI.

(** ** Reading a trace *)

(** The task an effect is about. *)
Definition effectTask (eff : Effect) : option string :=
  match eff with
  | RecorderEvent task _ _ _ => Some task
  | SanityCheckBeforeScheduling task => Some task
  | TaskHandle task _ => Some task
  | DeleteTaskPod task => Some task
  | _ => None
  end.

(** The tasks a trace touches, and the events it dispatches. *)
Definition touched (trace : Trace) : list string := omap effectTask trace.

Definition dispatched (trace : Trace) : list ApplicationEvent :=
  omap (λ eff, match eff with Dispatch ev => Some ev | _ => None end) trace.

(** The number of owned tasks that satisfy [P]. *)
Definition countTasks (P : Task.t → Prop) `{∀ t, Decision (P t)}
    (app : Application) : nat :=
  length (filter (λ kt : string * Task.t, P kt.2) (map_to_list (taskMap app))).

(** ** More fixtures *)

Definition newTask (taskID : string) (placeholder : bool) (taskGroupName state : string)
    (createTime : Z) : Task.t :=
  {| Task.taskID := taskID; Task.alias := "/" +:+ taskID;
     Task.applicationID := "app00001"; Task.state := state;
     Task.placeholder := placeholder; Task.taskGroupName := taskGroupName;
     Task.allocationUUID := ""; Task.createTime := createTime;
     Task.terminationType := "" |}.

(** A task state machine that answers InitTask by moving to Pending, and a
    precondition check that rejects the task named "task-unready". *)
Definition mockTaskHandle (task : Task.t) (event : string) : Task.t * option string :=
  if String.eqb event events.InitTask
  then (newTask (Task.taskID task) (Task.placeholder task) (Task.taskGroupName task)
          events.States.Task.Pending (Task.createTime task), None)
  else (task, Some "unexpected event").

Definition mockSanityCheck (task : Task.t) : option string :=
  if String.eqb (Task.taskID task) "task-unready"
  then Some "pvc is not bound" else None.

(** The two task groups of [TestSetTaskGroupsAndSchedulingPolicy]. *)
Definition testGroup1 : v1alpha1.TaskGroup :=
  {| v1alpha1.Name := "test-group-1"; v1alpha1.MinMember := 10;
     v1alpha1.MinResource :=
       {[ "cpu" := resource.milli 500; "memory" := resource.Mi 500 ]};
     v1alpha1.NodeSelector := ∅; v1alpha1.Tolerations := [] |}.

Definition testGroup2 : v1alpha1.TaskGroup :=
  {| v1alpha1.Name := "test-group-2"; v1alpha1.MinMember := 20;
     v1alpha1.MinResource :=
       {[ "cpu" := resource.milli 1000; "memory" := resource.Mi 1000 ]};
     v1alpha1.NodeSelector := {[ "locate" := "west" ]};
     v1alpha1.Tolerations := ["nodeType"] |}.

(** [TestTryReservePostRestart]: task groups, submitted, accepted, then three
    recovered tasks of which one is already allocated. *)
Definition acceptedApp : Application :=
  let app := setTaskGroups [testGroup1; testGroup2] app00001 in
  let app := (handle testClusterID (NewSubmitApplicationEvent "app00001") app).1.2 in
  (handle testClusterID
     (NewSimpleApplicationEvent "app00001" events.AcceptApplication) app).1.2.

Definition recoveredApp : Application :=
  addTask (newTask "task02" false "" events.States.Task.New 3)
    (addTask (newTask "task01" false "" events.States.Task.New 2)
       (addTask (newTask "task00" false "" events.States.Task.Allocated 1)
          acceptedApp)).

(** An application in the reservation phase with one placeholder and two
    workload tasks waiting, one placeholder already bound. *)
Definition reservingApp : Application :=
  SetState states.Reserving
    (addTask (newTask "task-unready" true "test-group-1" events.States.Task.New 5)
       (addTask (newTask "ph-2" true "test-group-1" events.States.Task.New 4)
          (addTask (newTask "ph-1" true "test-group-1" events.States.Task.Bound 3)
             (addTask (newTask "task01" false "test-group-1" events.States.Task.New 2)
                (addTask (newTask "task00" false "" events.States.Task.New 1)
                   acceptedApp))))).

(** The requests a trace sends to the scheduler. *)
Definition updates (trace : Trace) : list si.UpdateRequest :=
  omap (λ eff, match eff with SchedulerUpdate request => Some request | _ => None end)
       trace.

(** The [*fsm.Event] a callback receives. *)
Definition fsmEvent (event src dst : string) (args : list events.Arg) : AppFsmEvent :=
  {| fsm.Event_name := event; fsm.Event_Src := src; fsm.Event_Dst := dst;
     fsm.Args := args |}.

(** ** The placeholder ask *)

(** What one task group adds to the ask, and what a list of groups adds to a
    dimension. *)
Definition contribution (tg : v1alpha1.TaskGroup) : si.Resource :=
  common.GetTGResource (v1alpha1.MinResource tg) (v1alpha1.MinMember tg).

Definition totalOf (tgs : list v1alpha1.TaskGroup) (k : string) : Z :=
  foldr (λ tg acc, common.quantityOf (Some (contribution tg)) k + acc) 0 tgs.

(** ** The reservation counts *)

(** A task group name is registered when a registered task group has it. *)
Definition registered (app : Application) (name : string) : Prop :=
  name ∈ v1alpha1.Name <$> taskGroups app.

#[global] Instance registered_dec app name : Decision (registered app name).
Proof. unfold registered. apply _. Defined.





(** ** The callbacks a transition runs *)

(** The callback [NewApplication] registers under an event name: it runs
    after the event. *)
Definition afterCallback (ClusterID : string) (event : string) : option AppCallback :=
  if String.eqb event events.SubmitApplication
  then Some (handleSubmitApplicationEvent ClusterID)
  else if String.eqb event events.RecoverApplication
  then Some (handleRecoverApplicationEvent ClusterID)
  else if String.eqb event events.RejectApplication
  then Some handleRejectApplicationEvent
  else if String.eqb event events.CompleteApplication
  then Some handleCompleteApplicationEvent
  else if String.eqb event events.FailApplication
  then Some handleFailApplicationEvent
  else if String.eqb event events.UpdateReservation
  then Some onReservationStateChange
  else if String.eqb event events.ReleaseAppAllocation
  then Some handleReleaseAppAllocationEvent
  else if String.eqb event events.ReleaseAppAllocationAsk
  then Some handleReleaseAppAllocationAskEvent
  else None.

(** The callback registered under a state name: it runs when the state is
    entered. *)
Definition enterCallback (state : string) : option AppCallback :=
  if String.eqb state states.Reserving then Some onReserving else None.

Definition invoke (cb : option AppCallback) (e : AppFsmEvent)
    (st : Application * Trace) : Application * Trace :=
  match cb with
  | Some fn => ((fn e st.1).1, st.2 ++ (fn e st.1).2)
  | None => st
  end.

(** What a legal event from the current state to [dst] does, callback by
    callback. *)
Definition transitionTo (ClusterID : string) (ev : ApplicationEvent) (dst : string)
    (app : Application) : Application * Trace :=
  let e := fsmEvent (GetEvent ev) (GetApplicationState app) dst (GetArgs ev) in
  if String.eqb (GetApplicationState app) dst then
    invoke (afterCallback ClusterID (GetEvent ev)) e (app, [])
  else
    invoke (afterCallback ClusterID (GetEvent ev)) e
      (invoke (Some enterState) e
         (invoke (enterCallback dst) e (SetState dst app, []))).

(** The goroutines a trace starts and the warnings it records. *)
Definition goroutines (trace : Trace) : list Goroutine :=
  omap (λ eff, match eff with Go g => Some g | _ => None end) trace.

Definition warnings (trace : Trace) : list (string * string * string) :=
  omap (λ eff, match eff with
               | RecorderEvent task "Warning" reason message =>
                   Some (task, reason, message)
               | _ => None
               end) trace.

Definition deletions (trace : Trace) : list string :=
  omap (λ eff, match eff with DeleteTaskPod task => Some task | _ => None end) trace.

(** ** The order of the life cycle *)

(** How far along its life cycle an application is. *)
Definition stateRank (state : string) : nat :=
  if String.eqb state states.New then 0
  else if String.eqb state states.Submitted then 1
  else if String.eqb state states.Recovering then 1
  else if String.eqb state states.Rejected then 2
  else if String.eqb state states.Accepted then 2
  else if String.eqb state states.Reserving then 3
  else if String.eqb state states.Running then 4
  else if String.eqb state states.Killing then 5
  else if String.eqb state states.Completed then 6
  else if String.eqb state states.Failed then 6
  else if String.eqb state states.Killed then 6
  else 0.

(** An application that went through Submit is in state Submitted. *)
Definition submittedApp : Application :=
  (handle testClusterID (NewSubmitApplicationEvent "app00001") app00001).1.2.

(** A running application with an allocated workload task, an allocated
    placeholder under the same allocation identifier, and a task allocated
    elsewhere. *)
Definition allocatedTask (taskID : string) (placeholder : bool) (uuid : string)
    (createTime : Z) : Task.t :=
  {| Task.taskID := taskID; Task.alias := "/" +:+ taskID;
     Task.applicationID := "app00001"; Task.state := events.States.Task.Allocated;
     Task.placeholder := placeholder; Task.taskGroupName := "";
     Task.allocationUUID := uuid; Task.createTime := createTime;
     Task.terminationType := "" |}.

Definition runningApp : Application :=
  SetState states.Running
    (addTask (allocatedTask "task03" false "UUID-other" 3)
       (addTask (allocatedTask "task02" true "testUUID001" 2)
          (addTask (allocatedTask "task01" false "testUUID001" 1) app00001))).

(** A scheduler that refuses every update, and an application that talks to
    it. *)
Definition failingSchedulerAPI : si.UpdateRequest → option string :=
  λ _, Some "rejected by the core".

Definition unluckyApp : Application :=
  NewApplication "app00002" "root.abc" "testuser" ∅ failingSchedulerAPI.

(** ** What identifies an application *)

(** The attributes that identify an application and place it: identifier,
    queue, partition, user and tags. *)
Definition identity (app : Application)
  : string * string * string * string * gmap string string :=
  (applicationID app, queue app, partition app, user app, tags app).

(** A task without its termination type. *)
Definition withoutTermination (task : Task.t) : Task.t :=
  Task.setTaskTerminationType "" task.

(** ** Effects by kind *)

(** An effect that stays with the tasks: it does not reach the scheduler,
    the dispatcher or a goroutine. *)
Definition staysWithTasks (eff : Effect) : Prop :=
  match eff with
  | SchedulerUpdate _ | Dispatch _ | Go _ => False
  | _ => True
  end.

(** The timeouts, in milliseconds, of the requests a trace sends. *)
Definition timeoutsSent (trace : Trace) : list Z :=
  si.ExecutionTimeoutMilliSeconds <$> (updates trace ≫= si.NewApplications).

(** [TestTryReserve]: a new application with the two task groups and no
    task. *)
Definition gangApp : Application :=
  setTaskGroups [testGroup1; testGroup2] app00001.

(** * Properties *)

(** ** The state machine library *)

Section FsmFacts.
Context {A Eff Arg B : Type}.
Context (Current : A → string) (SetState : string → A → A).
Context (f : fsm.FSM A Eff Arg).

(** A view [proj] of the object that no callback and no transition touches. *)
Context (proj : A → B).
Hypothesis callbacks_keep :
  ∀ c, c ∈ fsm.callbacks f → ∀ e a, proj (c.2 e a).1 = proj a.

Lemma call_keeps target ty e st :
  proj (fsm.call f target ty e st).1 = proj st.1.
Proof.
  unfold fsm.call, fsm.findCallback.
  destruct (List.find _ _) as [c|] eqn:Hfind; simpl; [|done].
  apply find_some in Hfind as [Hin _].
  apply list_elem_of_In in Hin.
  exact (callbacks_keep c Hin e st.1).
Qed.

Lemma beforeEventCallbacks_keeps e st :
  proj (fsm.beforeEventCallbacks f e st).1 = proj st.1.
Proof. unfold fsm.beforeEventCallbacks. by rewrite !call_keeps. Qed.

Lemma afterEventCallbacks_keeps e st :
  proj (fsm.afterEventCallbacks f e st).1 = proj st.1.
Proof. unfold fsm.afterEventCallbacks. by rewrite !call_keeps. Qed.

Lemma leaveStateCallbacks_keeps e st :
  proj (fsm.leaveStateCallbacks Current f e st).1 = proj st.1.
Proof. unfold fsm.leaveStateCallbacks. by rewrite !call_keeps. Qed.

Lemma enterStateCallbacks_keeps e st :
  proj (fsm.enterStateCallbacks Current f e st).1 = proj st.1.
Proof. unfold fsm.enterStateCallbacks. by rewrite !call_keeps. Qed.

Lemma FSM_Event_illegal event args a :
  fsm.transitions (fsm.events f) !! (event, Current a) = None →
  fsm.FSM_Event Current SetState f event args a =
    (Some (if fsm.isIn event (fsm.allEvents (fsm.events f))
           then fsm.InvalidEventError event (Current a)
           else fsm.UnknownEventError event), a, []).
Proof.
  intros Hnone. unfold fsm.FSM_Event. rewrite Hnone.
  by destruct (fsm.isIn _ _).
Qed.

Lemma FSM_Event_keeps event args a :
  (∀ s a, proj (SetState s a) = proj a) →
  proj (fsm.FSM_Event Current SetState f event args a).1.2 = proj a.
Proof.
  intros Hset. unfold fsm.FSM_Event.
  destruct (_ !! _) as [dst|]; [|by destruct (fsm.isIn _ _)].
  destruct (String.eqb _ _); cbn [fst snd].
  - by rewrite afterEventCallbacks_keeps, beforeEventCallbacks_keeps.
  - rewrite afterEventCallbacks_keeps, enterStateCallbacks_keeps. cbn [fst snd].
    by rewrite Hset, leaveStateCallbacks_keeps, beforeEventCallbacks_keeps.
Qed.

End FsmFacts.

Section FsmCurrent.
Context {A Eff Arg : Type}.
Context (Current : A → string) (SetState : string → A → A).
Context (f : fsm.FSM A Eff Arg).
Hypothesis Current_SetState : ∀ s a, Current (SetState s a) = s.
Hypothesis callbacks_keep_state :
  ∀ c, c ∈ fsm.callbacks f → ∀ e a, Current (c.2 e a).1 = Current a.

(** A legal event ends in the destination of the table; the library reports
    "no transition" exactly when that is the state the machine is in. *)
Lemma FSM_Event_legal event args a dst :
  fsm.transitions (fsm.events f) !! (event, Current a) = Some dst →
  let r := fsm.FSM_Event Current SetState f event args a in
  Current r.1.2 = dst ∧
  r.1.1 = (if String.eqb (Current a) dst then Some fsm.NoTransitionError else None).
Proof.
  intros Hsome. unfold fsm.FSM_Event. rewrite Hsome. cbv zeta.
  rewrite (beforeEventCallbacks_keeps f Current callbacks_keep_state).
  cbn [fst snd].
  destruct (String.eqb (Current a) dst) eqn:Heq; cbn [fst snd].
  - rewrite (afterEventCallbacks_keeps f Current callbacks_keep_state).
    rewrite (beforeEventCallbacks_keeps f Current callbacks_keep_state).
    by apply String.eqb_eq in Heq.
  - rewrite (afterEventCallbacks_keeps f Current callbacks_keep_state).
    rewrite (enterStateCallbacks_keeps Current f Current callbacks_keep_state).
    cbn [fst snd]. by rewrite Current_SetState.
Qed.

End FsmCurrent.

Lemma listed_iff event state dst :
  listed event state dst ↔ fsm.transitions appEvents !! (event, state) = Some dst.
Proof.
  unfold listed. split.
  - intros Hin.
    assert (Forall (λ t, fsm.transitions appEvents !! (t.1.1, t.1.2) = Some t.2)
                   pairs_4_2) as Hall.
    { apply (bool_decide_unpack _). vm_compute. exact I. }
    rewrite Forall_forall in Hall. exact (Hall _ Hin).
  - intros Hlook. apply elem_of_map_to_list in Hlook.
    assert (Forall (λ kv : string * string * string, (kv.1.1, kv.1.2, kv.2) ∈ pairs_4_2)
                   (map_to_list (fsm.transitions appEvents))) as Hall.
    { apply (bool_decide_unpack _). vm_compute. exact I. }
    rewrite Forall_forall in Hall. exact (Hall _ Hlook).
Qed.

Lemma allEvents_known event state dst :
  fsm.transitions appEvents !! (event, state) = Some dst →
  fsm.isIn event (fsm.allEvents appEvents) = true.
Proof.
  intros Hlook. apply elem_of_map_to_list in Hlook.
  assert (Forall (λ kv : string * string * string,
                    fsm.isIn kv.1.1 (fsm.allEvents appEvents) = true)
                 (map_to_list (fsm.transitions appEvents))) as Hall.
  { apply (bool_decide_unpack _). vm_compute. exact I. }
  rewrite Forall_forall in Hall. exact (Hall _ Hlook).
Qed.

(** ** What the callbacks leave alone *)

Lemma with_taskMap_id app : with_taskMap (taskMap app) app = app.
Proof. by destruct app. Qed.

(** A callback changes at most the tasks of the application. *)
Lemma callbacks_touch_tasks_only ClusterID c :
  c ∈ fsm.callbacks (appFSM ClusterID) →
  ∀ e app, ∃ m, (c.2 e app).1 = with_taskMap m app.
Proof.
  intros Hin e app. simpl in Hin.
  repeat (apply elem_of_cons in Hin as [->|Hin]);
    try (by apply elem_of_nil in Hin);
    try (by exists (taskMap app); rewrite with_taskMap_id).
  - simpl. unfold handleReleaseAppAllocationEvent.
    destruct (events.GetEventArgsAsStrings _ _); simpl; [|by eauto].
    exists (taskMap app). by rewrite with_taskMap_id.
  - simpl. unfold handleReleaseAppAllocationAskEvent.
    destruct (events.GetEventArgsAsStrings _ _); simpl;
      [by exists (taskMap app); rewrite with_taskMap_id|].
    destruct (taskMap app !! _); simpl; [by eauto|].
    exists (taskMap app). by rewrite with_taskMap_id.
Qed.

Section HandleFacts.
Context (ClusterID : string).

Lemma callbacks_keep_view {B} (proj : Application → B) :
  (∀ m app, proj (with_taskMap m app) = proj app) →
  ∀ c, c ∈ fsm.callbacks (appFSM ClusterID) →
  ∀ e app, proj (c.2 e app).1 = proj app.
Proof.
  intros Hproj c Hin e app.
  destruct (callbacks_touch_tasks_only ClusterID c Hin e app) as [m ->].
  apply Hproj.
Qed.

Lemma no_transition_is_not_an_illegal_event (b : bool) event state :
  String.eqb
    (fsm.Error_string (if b then fsm.InvalidEventError event state
                       else fsm.UnknownEventError event))
    "no transition" = false.
Proof. by destruct b. Qed.

(** An event the table does not allow in the current state: an error, and
    nothing else happens. *)
Lemma handle_illegal ev app :
  fsm.transitions appEvents !! (GetEvent ev, GetApplicationState app) = None →
  handle ClusterID ev app =
    (Some (if fsm.isIn (GetEvent ev) (fsm.allEvents appEvents)
           then fsm.InvalidEventError (GetEvent ev) (GetApplicationState app)
           else fsm.UnknownEventError (GetEvent ev)), app, []).
Proof.
  intros Hnone. unfold handle, sm_Event.
  rewrite (FSM_Event_illegal GetApplicationState SetState (appFSM ClusterID)) by done.
  simpl fsm.events.
  by rewrite no_transition_is_not_an_illegal_event.
Qed.

(** An event the table allows: no error, and the destination is reached. *)
Lemma handle_legal ev app dst :
  fsm.transitions appEvents !! (GetEvent ev, GetApplicationState app) = Some dst →
  (handle ClusterID ev app).1.1 = None ∧
  GetApplicationState (handle ClusterID ev app).1.2 = dst.
Proof.
  intros Hsome. unfold handle, sm_Event.
  pose proof (FSM_Event_legal GetApplicationState SetState (appFSM ClusterID)
                (λ s a, eq_refl)
                (callbacks_keep_view GetApplicationState (λ m a, eq_refl))
                (GetEvent ev) (GetArgs ev) app dst Hsome) as [Hdst Herr].
  destruct (fsm.FSM_Event _ _ _ _ _ _) as [[err app'] effs].
  cbn [fst snd] in *. subst err.
  by destruct (String.eqb _ dst).
Qed.

Lemma handle_keeps {B} (proj : Application → B) ev app :
  (∀ m app, proj (with_taskMap m app) = proj app) →
  (∀ s app, proj (with_sm s app) = proj app) →
  proj (handle ClusterID ev app).1.2 = proj app.
Proof.
  intros Htasks Hsm. unfold handle, sm_Event.
  pose proof (FSM_Event_keeps GetApplicationState SetState (appFSM ClusterID) proj
                (callbacks_keep_view proj Htasks)
                (GetEvent ev) (GetArgs ev) app Hsm) as Hkeep.
  destruct (fsm.FSM_Event _ _ _ _ _ _) as [[err app'] effs].
  cbn [fst snd] in *.
  destruct err as [e|]; [destruct (negb _)|]; done.
Qed.

End HandleFacts.

(** ** The transition table (C3, C4) *)

(** C3: for every (state, event) pair listed in the transition table of
    section 4.2, [handle] moves the application to the declared destination
    and returns no error; for every pair absent from the table it returns a
    non-nil error and leaves the state unchanged. *)
Theorem handle_follows_transition_table (ClusterID : string)
    (app : Application) (ev : ApplicationEvent) :
  let r := handle ClusterID ev app in
  (∀ dst, listed (GetEvent ev) (GetApplicationState app) dst →
     r.1.1 = None ∧ GetApplicationState r.1.2 = dst) ∧
  ((∀ dst, ¬ listed (GetEvent ev) (GetApplicationState app) dst) →
     r.1.1 ≠ None ∧ GetApplicationState r.1.2 = GetApplicationState app).
Proof.
  cbv zeta. split.
  - intros dst Hlisted. apply listed_iff in Hlisted.
    by apply handle_legal.
  - intros Habsent.
    assert (fsm.transitions appEvents !! (GetEvent ev, GetApplicationState app) = None)
      as Hnone.
    { destruct (_ !! _) as [dst|] eqn:Hlook; [|done].
      apply listed_iff in Hlook. by destruct (Habsent dst). }
    by rewrite (handle_illegal ClusterID ev app Hnone).
Qed.

(** Submitting twice, as in [TestSubmitApplication]: the second submission is
    refused. *)
Lemma second_submit_is_refused :
  let submit := NewSubmitApplicationEvent "app00001" in
  let first := handle testClusterID submit app00001 in
  let second := handle testClusterID submit first.1.2 in
  first.1.1 = None ∧
  GetApplicationState first.1.2 = states.Submitted ∧
  canHandle testClusterID submit first.1.2 = false ∧
  second.1.1
    = Some (fsm.InvalidEventError events.SubmitApplication states.Submitted) ∧
  GetApplicationState second.1.2 = states.Submitted.
Proof. by vm_compute. Qed.

(** The event names [NewFSM] collects from the descriptors are the events of
    the life cycle. *)
Lemma allEvents_lifecycle event :
  event ∈ fsm.allEvents appEvents ↔ event ∈ lifecycleEvents.
Proof.
  assert (Forall (λ e, e ∈ lifecycleEvents) (fsm.allEvents appEvents)) as Hsub.
  { apply (bool_decide_unpack _). by vm_compute. }
  assert (Forall (λ e, e ∈ fsm.allEvents appEvents) lifecycleEvents) as Hsup.
  { apply (bool_decide_unpack _). by vm_compute. }
  rewrite Forall_forall in Hsub, Hsup. split; [apply Hsub|apply Hsup].
Qed.

(** C4, as amended: an event that is not legal from the current state
    (a repeat of the event that brought the application there included) makes
    [handle] return a non-nil error, and nothing else happens.  For an event
    of the life cycle the error is "event e inappropriate in current state
    s": it names the event and the state.  For a name that is no event of the
    life cycle the error is "event e does not exist".  [handle] returns no
    error and leaves the state where it is exactly for the legal transitions
    that end in the state they start from. *)
Theorem handle_refuses_illegal_events (ClusterID : string)
    (app : Application) (ev : ApplicationEvent) :
  let r := handle ClusterID ev app in
  (canHandle ClusterID ev app = false →
     r.1.1 ≠ None ∧ r.1.2 = app ∧ r.2 = [] ∧
     (GetEvent ev ∈ lifecycleEvents →
        r.1.1 = Some (fsm.InvalidEventError (GetEvent ev) (GetApplicationState app)) ∧
        fsm.Error_string <$> r.1.1
        = Some ("event " +:+ GetEvent ev +:+ " inappropriate in current state "
                +:+ GetApplicationState app)) ∧
     (GetEvent ev ∉ lifecycleEvents →
        r.1.1 = Some (fsm.UnknownEventError (GetEvent ev)) ∧
        fsm.Error_string <$> r.1.1
        = Some ("event " +:+ GetEvent ev +:+ " does not exist"))) ∧
  (r.1.1 = None ∧ GetApplicationState r.1.2 = GetApplicationState app ↔
     (GetEvent ev, GetApplicationState app) ∈ selfLoops).
Proof.
  cbv zeta. unfold canHandle, fsm.Can. simpl fsm.events. split.
  - intros Hcan. apply bool_decide_eq_false in Hcan.
    assert (fsm.transitions appEvents !! (GetEvent ev, GetApplicationState app) = None)
      as Hnone.
    { destruct (_ !! _) eqn:Hlook; [|done]. destruct Hcan. eauto. }
    rewrite (handle_illegal ClusterID ev app Hnone). cbn [fst snd].
    split; [done|]. split; [done|]. split; [done|].
    unfold fsm.isIn. rewrite <- allEvents_lifecycle. split; intros Hevent.
    + by rewrite bool_decide_eq_true_2.
    + by rewrite bool_decide_eq_false_2.
  - destruct (fsm.transitions appEvents !! (GetEvent ev, GetApplicationState app))
      as [dst|] eqn:Hlook.
    + destruct (handle_legal ClusterID ev app dst Hlook) as [-> ->].
      apply listed_iff in Hlook. unfold listed in Hlook. split.
      * intros [_ ->]. revert Hlook.
        generalize (GetEvent ev) (GetApplicationState app). intros e s Hin.
        vm_compute in Hin.
        repeat (apply elem_of_cons in Hin as [Hin|Hin];
                [injection Hin as -> -> ?; try discriminate; vm_compute;
                 set_solver|]).
        by apply elem_of_nil in Hin.
      * intros Hloop. split; [done|]. revert Hlook Hloop.
        generalize (GetEvent ev) (GetApplicationState app). intros e s Hin Hloop.
        vm_compute in Hloop.
        repeat (apply elem_of_cons in Hloop as [Hloop|Hloop];
                [injection Hloop as -> ->; vm_compute in Hin;
                 repeat (apply elem_of_cons in Hin as [Hin|Hin];
                         [by injection Hin|]);
                 by apply elem_of_nil in Hin|]).
        by apply elem_of_nil in Hloop.
    + rewrite (handle_illegal ClusterID ev app Hlook). cbn [fst snd].
      split; [by intros [? _]|].
      intros Hloop. exfalso.
      assert (Forall (λ p : string * string,
                        is_Some (fsm.transitions appEvents !! p)) selfLoops) as Hall.
      { apply (bool_decide_unpack _). vm_compute. exact I. }
      rewrite Forall_forall in Hall. apply Hall in Hloop.
      destruct Hloop as [dst Hdst].
      discriminate (eq_trans (eq_sym Hdst) Hlook).
Qed.

(** ** The tasks of a state *)

Lemma getTasks_Permutation state app :
  getTasks state app ≡ₚ
  filter (λ kt, Task.GetTaskState kt.2 = state) (map_to_list (taskMap app)).
Proof. apply merge_sort_Permutation. Qed.

Lemma elem_of_getTasks state app key task :
  (key, task) ∈ getTasks state app ↔
  taskMap app !! key = Some task ∧ Task.state task = state.
Proof.
  rewrite getTasks_Permutation, list_elem_of_filter, elem_of_map_to_list.
  unfold Task.GetTaskState. simpl. tauto.
Qed.

Lemma length_getTasks state app :
  length (getTasks state app) = countTasks (λ t, Task.state t = state) app.
Proof. unfold countTasks. by rewrite getTasks_Permutation. Qed.

Lemma getTasks_with_sm state s app :
  getTasks state (with_sm s app) = getTasks state app.
Proof. done. Qed.

(** ** The gang decision (C2) *)

Section ScheduleFacts.
Context (ClusterID : string).
Context (sanityCheckBeforeScheduling : Task.t → option string).
Context (taskHandle : Task.t → string → Task.t * option string).

Local Abbreviation Schedule := (Schedule ClusterID sanityCheckBeforeScheduling taskHandle).

Lemma Schedule_Accepted app :
  GetApplicationState app = states.Accepted →
  Schedule app = postAppAccepted app.
Proof. intros Hstate. unfold Schedule. by rewrite Hstate. Qed.

(** C2: in state Accepted, [Schedule] dispatches TryReserve exactly when task
    groups are registered and no owned task is Allocated; otherwise it
    dispatches Run, and nothing else is dispatched either way.  TryReserve
    takes the application from Accepted to Reserving.  With an Allocated task
    the one event dispatched is Run, which takes the application from
    Accepted straight to Running. *)
Theorem gang_decision (app : Application) :
  GetApplicationState app = states.Accepted →
  let r := Schedule app in
  let gang :=
    taskGroups app ≠ [] ∧
    countTasks (λ t, Task.state t = events.States.Task.Allocated) app = 0%nat in
  let tryReserve := NewSimpleApplicationEvent (applicationID app) events.TryReserve in
  let run := NewRunApplicationEvent (applicationID app) in
  r.1 = app ∧
  (tryReserve ∈ dispatched r.2 ↔ gang) ∧
  (run ∈ dispatched r.2 ↔ ¬ gang) ∧
  (∀ ev, ev ∈ dispatched r.2 → ev = tryReserve ∨ ev = run) ∧
  ((handle ClusterID tryReserve app).1.1 = None ∧
   GetApplicationState (handle ClusterID tryReserve app).1.2 = states.Reserving) ∧
  (countTasks (λ t, Task.state t = events.States.Task.Allocated) app ≠ 0%nat →
     dispatched r.2 = [run] ∧
     (handle ClusterID run app).1.1 = None ∧
     GetApplicationState (handle ClusterID run app).1.2 = states.Running).
Proof.
  intros Hstate. cbv zeta. rewrite (Schedule_Accepted app Hstate).
  unfold postAppAccepted. rewrite length_getTasks. cbn [fst snd].
  set (n := countTasks _ app).
  assert (length (taskGroups app) ≠ 0%nat ↔ taskGroups app ≠ []) as Hlen
    by (by destruct (taskGroups app)).
  split; [done|].
  assert (NewSimpleApplicationEvent (applicationID app) events.TryReserve
          ≠ NewRunApplicationEvent (applicationID app)) as Hdiff by done.
  assert ((handle ClusterID (NewRunApplicationEvent (applicationID app)) app).1.1 = None ∧
          GetApplicationState
            (handle ClusterID (NewRunApplicationEvent (applicationID app)) app).1.2
          = states.Running) as Hrun
    by (by apply handle_legal; rewrite Hstate).
  assert ((handle ClusterID
             (NewSimpleApplicationEvent (applicationID app) events.TryReserve) app).1.1
          = None ∧
          GetApplicationState
            (handle ClusterID
               (NewSimpleApplicationEvent (applicationID app) events.TryReserve) app).1.2
          = states.Reserving) as Hreserve
    by (by apply handle_legal; rewrite Hstate).
  generalize dependent (NewSimpleApplicationEvent (applicationID app) events.TryReserve).
  generalize dependent (NewRunApplicationEvent (applicationID app)).
  intros run Hrun tryReserve Hdiff Hreserve.
  destruct (decide (length (taskGroups app) ≠ 0%nat)) as [Hgroups|Hgroups];
    [rewrite (bool_decide_eq_true_2 _ Hgroups)
    |rewrite (bool_decide_eq_false_2 _ Hgroups)];
    (destruct (decide (n = 0%nat)) as [Hn|Hn];
      [rewrite (bool_decide_eq_true_2 _ Hn)
      |rewrite (bool_decide_eq_false_2 _ Hn)]);
    unfold dispatched; cbn -[handle];
    rewrite ?elem_of_cons, ?elem_of_nil;
    (split; [|split; [|split; [|split]]]); try tauto;
    try (intros ev; rewrite ?elem_of_cons, ?elem_of_nil; tauto).
  split; [|tauto]. intros [Heq|[Heq|[]]]; by destruct Hdiff.
Qed.

(** ** Which tasks are advanced (C1) *)

Local Abbreviation scheduleTask := (scheduleTask sanityCheckBeforeScheduling taskHandle).
Local Abbreviation scheduleTasks := (scheduleTasks sanityCheckBeforeScheduling taskHandle).

Lemma touched_app (t1 t2 : Trace) : touched (t1 ++ t2) = touched t1 ++ touched t2.
Proof. apply omap_app. Qed.

(** One round touches the task it is given when the class filter selects it,
    and no other; the tasks stored under other keys stay as they are. *)
Lemma scheduleTask_spec cond acc kt :
  let r := scheduleTask cond acc kt in
  (∀ key, key ∈ touched r.2 ↔
          key ∈ touched acc.2 ∨ (cond kt.2 = true ∧ key = kt.1)) ∧
  (∀ key, key ≠ kt.1 → taskMap r.1 !! key = taskMap acc.1 !! key) ∧
  (cond kt.2 = false → r = acc).
Proof.
  destruct kt as [key task]. destruct acc as [app trace].
  unfold scheduleTask. cbn [fst snd].
  destruct (cond task); [|split; [intros k; intuition congruence|done]].
  destruct (sanityCheckBeforeScheduling task) as [err|].
  - cbn [fst snd]. split; [|done]. intros k. rewrite touched_app.
    rewrite elem_of_app. unfold touched at 2. cbn.
    rewrite !elem_of_cons, elem_of_nil. intuition congruence.
  - destruct (taskHandle task events.InitTask) as [task' handleErr].
    cbn [fst snd]. split; [|split; [|done]].
    + intros k. rewrite !touched_app, !elem_of_app.
      unfold touched at 2 3. destruct handleErr; cbn;
        rewrite !elem_of_cons, elem_of_nil; intuition congruence.
    + intros key' Hne. simpl. by rewrite lookup_insert_ne.
Qed.

Lemma scheduleTasks_fold cond tasks acc :
  let r := foldl (scheduleTask cond) acc tasks in
  (∀ key, key ∈ touched r.2 ↔
          key ∈ touched acc.2 ∨ key ∈ (filter (λ kt, cond kt.2 = true) tasks).*1) ∧
  (∀ key, key ∉ (filter (λ kt, cond kt.2 = true) tasks).*1 →
          taskMap r.1 !! key = taskMap acc.1 !! key).
Proof.
  revert acc. induction tasks as [|kt tasks IH]; intros acc; simpl.
  - split; [|done]. intros key. rewrite elem_of_nil. tauto.
  - destruct (IH (scheduleTask cond acc kt)) as [IHt IHm].
    destruct (scheduleTask_spec cond acc kt) as (Ht & Hm & Hskip).
    rewrite filter_cons. destruct (decide (cond kt.2 = true)) as [Hc|Hc].
    + split.
      * intros key. rewrite IHt, Ht, fmap_cons, elem_of_cons. tauto.
      * intros key Hnot. rewrite fmap_cons, not_elem_of_cons in Hnot.
        destruct Hnot as [Hne Hnot]. rewrite IHm by done. by apply Hm.
    + apply not_true_is_false in Hc. rewrite (Hskip Hc) in *. by split.
Qed.

Lemma scheduleTasks_spec cond app key :
  let r := scheduleTasks cond app in
  (key ∈ touched r.2 ↔
     ∃ task, taskMap app !! key = Some task ∧
             Task.state task = events.States.Task.New ∧ cond task = true) ∧
  (key ∉ touched r.2 → taskMap r.1 !! key = taskMap app !! key).
Proof.
  cbv zeta. unfold scheduleTasks.
  destruct (scheduleTasks_fold cond (GetNewTasks app) (app, [])) as [Ht Hm].
  cbn [fst snd] in *.
  assert (∀ key, key ∈ touched (foldl (scheduleTask cond) (app, []) (GetNewTasks app)).2
                 ↔ key ∈ (filter (λ kt, cond kt.2 = true) (GetNewTasks app)).*1)
    as Ht'.
  { intros k. rewrite Ht. unfold touched at 1. cbn. rewrite elem_of_nil. tauto. }
  split; [|rewrite Ht'; apply Hm].
  rewrite Ht'.
  - rewrite list_elem_of_fmap. split.
    + intros ([key' task] & -> & Hin). apply list_elem_of_filter in Hin as [Hc Hin].
      apply elem_of_getTasks in Hin as [Hlook Hstate]. eauto.
    + intros (task & Hlook & Hstate & Hc). exists (key, task). split; [done|].
      apply list_elem_of_filter. split; [done|]. by apply elem_of_getTasks.
Qed.

(** C1: in state Reserving, [Schedule] touches (sanity check, init, or the
    diagnostic of a failed check) exactly the owned tasks that are in the New
    task state and flagged as placeholder; in state Running exactly those in
    the New task state that are not flagged.  Every other task is left as it
    is, so no workload task is advanced while the application is Reserving. *)
Theorem Schedule_advances_one_class (app : Application) (key : string) :
  let r := Schedule app in
  (GetApplicationState app = states.Reserving →
     (key ∈ touched r.2 ↔
        ∃ task, taskMap app !! key = Some task ∧
                Task.state task = events.States.Task.New ∧
                Task.placeholder task = true) ∧
     (∀ task, taskMap app !! key = Some task → Task.placeholder task = false →
              (key ∉ touched r.2) ∧ taskMap r.1 !! key = Some task)) ∧
  (GetApplicationState app = states.Running →
     (key ∈ touched r.2 ↔
        ∃ task, taskMap app !! key = Some task ∧
                Task.state task = events.States.Task.New ∧
                Task.placeholder task = false) ∧
     (∀ task, taskMap app !! key = Some task → Task.placeholder task = true →
              (key ∉ touched r.2) ∧ taskMap r.1 !! key = Some task)).
Proof.
  cbv zeta. split; intros Hstate; unfold Schedule; rewrite Hstate;
    cbn [String.eqb Ascii.eqb Bool.eqb states.New states.Accepted
         states.Reserving states.Running].
  - destruct (scheduleTasks_spec (λ t, Task.placeholder t) app key) as [Hin Hout].
    split; [done|]. intros task Hlook Hflag.
    assert (key ∉ touched (scheduleTasks (λ t, Task.placeholder t) app).2) as Hnot.
    { rewrite Hin. intros (task' & Hlook' & _ & Hflag'). congruence. }
    split; [done|]. by rewrite Hout.
  - destruct (scheduleTasks_spec (λ t, negb (Task.placeholder t)) app key) as [Hin Hout].
    split.
    + rewrite Hin. by setoid_rewrite negb_true_iff.
    + intros task Hlook Hflag.
      assert (key ∉ touched (scheduleTasks (λ t, negb (Task.placeholder t)) app).2)
        as Hnot.
      { rewrite Hin. intros (task' & Hlook' & _ & Hflag').
        apply negb_true_iff in Hflag'. congruence. }
      split; [done|]. by rewrite Hout.
Qed.

End ScheduleFacts.

(** The recovered application of [TestTryReservePostRestart]: one task is
    Allocated, so the only event dispatched is Run, although two task groups
    are registered. *)
Lemma gang_decision_recovered :
  GetApplicationState recoveredApp = states.Accepted ∧
  taskGroups recoveredApp = [testGroup1; testGroup2] ∧
  dispatched (Schedule testClusterID mockSanityCheck mockTaskHandle recoveredApp).2
    = [NewRunApplicationEvent "app00001"] ∧
  GetApplicationState
    (handle testClusterID (NewRunApplicationEvent "app00001") recoveredApp).1.2
    = states.Running.
Proof.
  split; [by vm_compute|]. split; [by vm_compute|].
  destruct (gang_decision testClusterID mockSanityCheck mockTaskHandle recoveredApp)
    as (_ & _ & _ & _ & _ & Hrecovered); [by vm_compute|].
  destruct Hrecovered as (Hrun & _ & Hstate); [by vm_compute|].
  split; [exact Hrun | exact Hstate].
Defined.

(** Without an Allocated task the same application asks for a reservation
    ([TestTryReserve]); the event is dispatched twice. *)
Lemma gang_decision_accepted :
  dispatched (Schedule testClusterID mockSanityCheck mockTaskHandle acceptedApp).2
    = [NewSimpleApplicationEvent "app00001" events.TryReserve;
       NewSimpleApplicationEvent "app00001" events.TryReserve].
Proof. by vm_compute. Qed.

(** A round of the reservation phase: the two placeholders that wait in New
    are tried, the one that passes the check is initialised, and the two
    workload tasks are not looked at. *)
Lemma Schedule_reservingApp_run :
  let r := Schedule testClusterID mockSanityCheck mockTaskHandle reservingApp in
  GetApplicationState reservingApp = states.Reserving ∧
  r.2 = [SanityCheckBeforeScheduling "ph-2"; TaskHandle "ph-2" events.InitTask;
         SanityCheckBeforeScheduling "task-unready";
         RecorderEvent "task-unready" "Warning" "FailedScheduling" "pvc is not bound";
         Log "debug" "task is not ready for scheduling"] ∧
  Task.state <$> taskMap r.1 !! "ph-2" = Some events.States.Task.Pending ∧
  taskMap r.1 !! "task00" = taskMap reservingApp !! "task00" ∧
  taskMap r.1 !! "task01" = taskMap reservingApp !! "task01".
Proof. by vm_compute. Qed.

(** ** What a legal event runs *)

Section Unfold.
Context (ClusterID : string).

Lemma handle_Submit_New appID args app :
  GetApplicationState app = states.New →
  handle ClusterID
    {| GetApplicationID_ev := appID; GetEvent := events.SubmitApplication;
       GetArgs := args |} app =
  (None, SetState states.Submitted app,
   Log "debug" "shim app state transition" ::
   (handleSubmitApplicationEvent ClusterID
      (fsmEvent events.SubmitApplication states.New states.Submitted args)
      (SetState states.Submitted app)).2).
Proof. destruct app. simpl. intros ->. reflexivity. Qed.

Lemma handle_Recover_New appID args app :
  GetApplicationState app = states.New →
  handle ClusterID
    {| GetApplicationID_ev := appID; GetEvent := events.RecoverApplication;
       GetArgs := args |} app =
  (None, SetState states.Recovering app,
   Log "debug" "shim app state transition" ::
   (handleRecoverApplicationEvent ClusterID
      (fsmEvent events.RecoverApplication states.New states.Recovering args)
      (SetState states.Recovering app)).2).
Proof. destruct app. simpl. intros ->. reflexivity. Qed.


(** Fail is legal from five states; the callback runs after the state is
    set and the transition is logged. *)
Lemma handle_Fail appID args app :
  GetApplicationState app ∈
    [states.Submitted; states.Rejected; states.Accepted; states.Running;
     states.Reserving] →
  handle ClusterID
    {| GetApplicationID_ev := appID; GetEvent := events.FailApplication;
       GetArgs := args |} app =
  (None, SetState states.Failed app,
   Log "debug" "shim app state transition" ::
   (handleFailApplicationEvent
      (fsmEvent events.FailApplication (GetApplicationState app) states.Failed args)
      (SetState states.Failed app)).2).
Proof.
  destruct app. simpl. intros Hin.
  repeat (apply elem_of_cons in Hin as [->|Hin]; [reflexivity|]).
  by apply elem_of_nil in Hin.
Qed.

(** ReleaseAllocationAsk is legal from four states. *)
Lemma handle_ReleaseAppAllocationAsk appID args app :
  GetApplicationState app ∈
    [states.Running; states.Accepted; states.Reserving; states.Failed] →
  let dst := if String.eqb (GetApplicationState app) states.Failed
             then states.Failed else states.Running in
  let r := handleReleaseAppAllocationAskEvent
             (fsmEvent events.ReleaseAppAllocationAsk (GetApplicationState app) dst args)
             (SetState dst app) in
  handle ClusterID
    {| GetApplicationID_ev := appID; GetEvent := events.ReleaseAppAllocationAsk;
       GetArgs := args |} app =
  (None, r.1,
   (if String.eqb (GetApplicationState app) dst then []
    else [Log "debug" "shim app state transition"]) ++ r.2).
Proof.
  destruct app. simpl. intros Hin.
  repeat (apply elem_of_cons in Hin as [->|Hin]; [reflexivity|]).
  by apply elem_of_nil in Hin.
Qed.

End Unfold.

(** ** Submission and recovery requests (C10) *)

Lemma updates_submitted app request :
  updates (submitted app request) = [request].
Proof. unfold submitted. by destruct (schedulerAPI app request). Qed.

(** C10: the request built by the Recover callback carries the identifier,
    queue, partition, user, tags and the timeout times one thousand, and no
    placeholder ask, whatever ask has been accumulated; the request built by
    the Submit callback is the same request with the accumulated ask. *)
Theorem recovery_request_omits_placeholder_ask (ClusterID : string)
    (app : Application) :
  GetApplicationState app = states.New →
  let request ask :=
    {| si.NewApplications :=
         [ {| si.ApplicationID := applicationID app;
              si.QueueName := queue app;
              si.PartitionName := partition app;
              si.Ugi_User := user app;
              si.Tags := tags app;
              si.PlaceholderAsk := ask;
              si.ExecutionTimeoutMilliSeconds :=
                wrap64 (placeholderTimeoutInSec app * 1000) |} ];
       si.RmID := ClusterID |} in
  updates (TriggerAppRecovery ClusterID app).2 = [request None] ∧
  updates (handle ClusterID (NewSubmitApplicationEvent (applicationID app)) app).2
    = [request (getPlaceholderAsk app)].
Proof.
  intros Hstate. cbv zeta. unfold TriggerAppRecovery, NewSubmitApplicationEvent,
    NewSimpleApplicationEvent.
  rewrite handle_Recover_New, handle_Submit_New by done.
  cbn [snd handleRecoverApplicationEvent handleSubmitApplicationEvent updates omap
       list_omap].
  fold (updates (submitted (SetState states.Recovering app)
                   (addApplicationRequest ClusterID (SetState states.Recovering app) None))).
  fold (updates (submitted (SetState states.Submitted app)
                   (addApplicationRequest ClusterID (SetState states.Submitted app)
                      (placeholderAsk (SetState states.Submitted app))))).
  by rewrite !updates_submitted.
Qed.

(** With the two task groups of the tests registered, the ask is not empty
    and the recovery request still has none. *)
Lemma recovery_request_with_task_groups :
  let app := setTaskGroups [testGroup1; testGroup2] app00001 in
  GetApplicationState app = states.New ∧
  getPlaceholderAsk app ≠ None ∧
  si.PlaceholderAsk <$> (updates (TriggerAppRecovery testClusterID app).2
                           ≫= si.NewApplications) = [None] ∧
  si.PlaceholderAsk <$>
    (updates (handle testClusterID (NewSubmitApplicationEvent "app00001") app).2
       ≫= si.NewApplications) = [getPlaceholderAsk app].
Proof.
  cbv zeta. split; [by vm_compute|]. split; [by vm_compute|].
  destruct (recovery_request_omits_placeholder_ask testClusterID
              (setTaskGroups [testGroup1; testGroup2] app00001)) as [-> Hsubmit];
    [by vm_compute|].
  split; [done|].
  change "app00001" with
    (applicationID (setTaskGroups [testGroup1; testGroup2] app00001)) at 1.
  by rewrite Hsubmit.
Defined.

(** ** Releasing an allocation ask (C8) *)

(** C8: a ReleaseAllocationAsk event that names an owned task records the
    termination reason on that task and changes no other task; the deletion
    of the task's pod is requested if and only if the task is a placeholder,
    and for another task the request is skipped with a warning in the log.
    For an identifier that is not in the task map no task is modified and no
    deletion is requested. *)
Theorem release_ask_deletes_placeholders_only (ClusterID : string)
    (app : Application) (appID terminationType taskID : string) :
  GetApplicationState app ∈
    [states.Running; states.Accepted; states.Reserving; states.Failed] →
  let r := handle ClusterID
             (NewReleaseAppAllocationAskEvent appID terminationType taskID) app in
  r.1.1 = None ∧
  match taskMap app !! taskID with
  | Some task =>
      taskMap r.1.2
        = <[taskID := Task.setTaskTerminationType terminationType task]> (taskMap app) ∧
      (DeleteTaskPod taskID ∈ r.2 ↔ Task.IsPlaceholder task = true) ∧
      (Task.IsPlaceholder task = false →
         Log "warn" "skip to release allocation ask, ask is not a placeholder" ∈ r.2) ∧
      (∀ key, key ∈ touched r.2 → key = taskID)
  | None =>
      r.1.2 = SetState (if String.eqb (GetApplicationState app) states.Failed
                        then states.Failed else states.Running) app ∧
      taskMap r.1.2 = taskMap app ∧ touched r.2 = []
  end.
Proof.
  intros Hstate. cbv zeta. unfold NewReleaseAppAllocationAskEvent.
  rewrite handle_ReleaseAppAllocationAsk by done. cbv zeta. cbn [fst snd].
  split; [done|].
  set (dst := if String.eqb (GetApplicationState app) states.Failed
              then states.Failed else states.Running).
  unfold handleReleaseAppAllocationAskEvent, fsmEvent. cbn [fsm.Args].
  change (events.GetEventArgsAsStrings 2 _)
    with (inr [taskID; terminationType] : string + list string).
  cbn [nth]. change (taskMap (SetState dst app)) with (taskMap app).
  destruct (taskMap app !! taskID) as [task|]; cbn [fst snd].
  - split; [done|].
    change (Task.IsPlaceholder (Task.setTaskTerminationType terminationType task))
      with (Task.IsPlaceholder task).
    destruct (String.eqb (GetApplicationState app) dst);
      destruct (Task.IsPlaceholder task); cbn [Datatypes.app];
      unfold touched; cbn [omap list_omap effectTask];
      rewrite ?elem_of_cons, ?elem_of_nil;
      (split; [|split]); try (intros key; rewrite ?elem_of_cons, ?elem_of_nil);
      intuition congruence.
  - split; [done|]. split; [done|].
    by destruct (String.eqb (GetApplicationState app) dst).
Qed.

(** On the reservation fixture: the pod of the bound placeholder is deleted,
    the pod of the workload task is not, and both get the termination
    reason. *)
Lemma release_ask_on_reservingApp :
  let release taskID :=
    handle testClusterID (NewReleaseAppAllocationAskEvent "app00001" "TIMEOUT" taskID)
           reservingApp in
  GetApplicationState reservingApp ∈
    [states.Running; states.Accepted; states.Reserving; states.Failed] ∧
  (release "ph-1").2
    = [Log "debug" "shim app state transition";
       Log "info" "try to release pod from application";
       DeleteTaskPod "ph-1"] ∧
  Task.terminationType <$> taskMap (release "ph-1").1.2 !! "ph-1" = Some "TIMEOUT" ∧
  (DeleteTaskPod "task01" ∈ (release "task01").2 ↔ false = true) ∧
  Task.terminationType <$> taskMap (release "task01").1.2 !! "task01" = Some "TIMEOUT" ∧
  taskMap (release "no-such-task").1.2 = taskMap reservingApp.
Proof.
  cbv zeta.
  assert (GetApplicationState reservingApp ∈
            [states.Running; states.Accepted; states.Reserving; states.Failed])
    as Hstate by (vm_compute; set_solver).
  split; [exact Hstate|].
  split; [by vm_compute|]. split; [by vm_compute|].
  pose proof (release_ask_deletes_placeholders_only testClusterID reservingApp
                "app00001" "TIMEOUT" "task01" Hstate) as [_ Htask].
  pose proof (release_ask_deletes_placeholders_only testClusterID reservingApp
                "app00001" "TIMEOUT" "no-such-task" Hstate) as [_ Hnone].
  assert (taskMap reservingApp !! "task01"
          = Some (newTask "task01" false "test-group-1" events.States.Task.New 2))
    as Hlook by (by vm_compute).
  assert (taskMap reservingApp !! "no-such-task" = None) as Hmiss by (by vm_compute).
  rewrite Hlook in Htask. rewrite Hmiss in Hnone.
  destruct Htask as (_ & Hdelete & _). destruct Hnone as (_ & Hsame & _).
  split; [exact Hdelete|].
  split; [by vm_compute|].
  exact Hsame.
Defined.

(** ** A Fail event with malformed arguments (C9) *)

(** The cleanup goroutine is started before the arguments are looked at: a
    Fail event whose argument is not a string still triggers the cleanup of
    the placeholders. *)
Lemma malformed_Fail_requests_cleanup :
  let ev := {| GetApplicationID_ev := "app00001";
               GetEvent := events.FailApplication;
               GetArgs := [events.OtherArg 7] |} in
  GetApplicationState recoveredApp = states.Accepted ∧
  events.GetEventArgsAsStrings 1 (GetArgs ev)
    = inl "failed to parse event arguments, expecting string type" ∧
  (handle testClusterID ev recoveredApp).2
    = [Log "debug" "shim app state transition";
       Go (cleanUp "app00001");
       Log "error" "fail to parse event arg"].
Proof. by vm_compute. Qed.

(** C9, as amended: a Fail event whose arguments cannot be parsed into the
    single message string completes the transition to Failed without an
    error; the callback emits no warning for any task and changes no task,
    logs the parse failure, and has requested the cleanup of the
    placeholders before looking at the arguments. *)
Theorem malformed_Fail_emits_no_warning (ClusterID : string)
    (app : Application) (ev : ApplicationEvent) :
  GetEvent ev = events.FailApplication →
  GetApplicationState app ∈
    [states.Submitted; states.Rejected; states.Accepted; states.Running;
     states.Reserving] →
  (∀ eventArgs, events.GetEventArgsAsStrings 1 (GetArgs ev) ≠ inr eventArgs) →
  let r := handle ClusterID ev app in
  r.1.1 = None ∧
  r.1.2 = SetState states.Failed app ∧
  r.2 = [Log "debug" "shim app state transition";
         Go (cleanUp (applicationID app));
         Log "error" "fail to parse event arg"] ∧
  touched r.2 = [].
Proof.
  intros Hev Hstate Hparse. cbv zeta. destruct ev as [appID event args].
  simpl in Hev, Hparse. subst event.
  rewrite handle_Fail by done. cbn [fst snd].
  unfold handleFailApplicationEvent, fsmEvent. cbn [fsm.Args snd].
  destruct (events.GetEventArgsAsStrings 1 args) as [err|eventArgs] eqn:Hargs.
  - done.
  - by destruct (Hparse eventArgs).
Qed.

Lemma malformed_Fail_on_recoveredApp :
  let ev := {| GetApplicationID_ev := "app00001";
               GetEvent := events.FailApplication;
               GetArgs := [events.OtherArg 7] |} in
  GetApplicationState recoveredApp = states.Accepted ∧
  GetApplicationState (handle testClusterID ev recoveredApp).1.2 = states.Failed ∧
  touched (handle testClusterID ev recoveredApp).2 = [].
Proof.
  cbv zeta. split; [by vm_compute|].
  destruct (malformed_Fail_emits_no_warning testClusterID recoveredApp
              {| GetApplicationID_ev := "app00001";
                 GetEvent := events.FailApplication;
                 GetArgs := [events.OtherArg 7] |})
    as (_ & -> & _ & Hnone).
  - reflexivity.
  - vm_compute. set_solver.
  - intros eventArgs. by vm_compute.
  - split; [reflexivity | exact Hnone].
Defined.

(** With a well-formed message every task that waits in New, Pending or
    Scheduling gets its warning: the two New tasks of the recovered
    application, not the Allocated one. *)
Lemma wellformed_Fail_on_recoveredApp :
  touched (handle testClusterID (NewFailApplicationEvent "app00001" "Test Error Message")
             recoveredApp).2
    = ["task01"; "task02"].
Proof. by vm_compute. Qed.

(** ** The placeholder ask (C6, C7) *)

(** C6: registering the two task groups {minMember 10, 500m CPU, 500Mi
    memory} and {minMember 20, 1000m CPU, 1000Mi memory} on a fresh
    application gives an ask of 25000 for CPU and 26230 for memory: 500Mi is
    rounded up to 525 and 1000Mi to 1049 before the multiplication by the
    member count, which gives 5250 and 20980. *)
Theorem placeholder_ask_of_the_test_groups (appID queueName user : string)
    (tags : gmap string string) (scheduler : si.UpdateRequest → option string) :
  let app := setTaskGroups [testGroup1; testGroup2]
               (NewApplication appID queueName user tags scheduler) in
  getPlaceholderAsk app
    = Some {[ constants.Memory := 26230; constants.CPU := 25000 ]} ∧
  common.roundUpToWholeUnit "memory" (resource.Mi 500) = 525 ∧
  common.roundUpToWholeUnit "memory" (resource.Mi 1000) = 1049 ∧
  common.roundUpToWholeUnit "cpu" (resource.milli 500) = 500 ∧
  common.roundUpToWholeUnit "cpu" (resource.milli 1000) = 1000 ∧
  contribution testGroup1 = {[ constants.Memory := 5250; constants.CPU := 5000 ]} ∧
  contribution testGroup2 = {[ constants.Memory := 20980; constants.CPU := 20000 ]}.
Proof. cbv zeta. repeat split; by vm_compute. Qed.

Lemma quantityOf_Add left right k :
  common.quantityOf (common.Add left right) k
  = common.quantityOf left k + common.quantityOf right k.
Proof.
  unfold common.quantityOf, common.Add. cbn [default from_option id].
  rewrite lookup_union_with.
  destruct (default ∅ left !! k), (default ∅ right !! k); simpl; lia.
Qed.

Lemma setTaskGroups_fold tgs app k :
  common.quantityOf
    (placeholderAsk
       (foldl (λ app taskGroup,
                 with_placeholderAsk
                   (common.Add (placeholderAsk app)
                      (Some (common.GetTGResource (v1alpha1.MinResource taskGroup)
                               (v1alpha1.MinMember taskGroup))))
                   app)
              app tgs)) k
  = common.quantityOf (placeholderAsk app) k + totalOf tgs k.
Proof.
  revert app. induction tgs as [|tg tgs IH]; intros app; simpl.
  - lia.
  - rewrite IH. simpl. rewrite quantityOf_Add. unfold contribution. lia.
Qed.

Lemma setTaskGroups_ask tgs app :
  placeholderAsk
    (foldl (λ app taskGroup,
              with_placeholderAsk
                (common.Add (placeholderAsk app)
                   (Some (common.GetTGResource (v1alpha1.MinResource taskGroup)
                            (v1alpha1.MinMember taskGroup))))
                app)
           app tgs)
  = foldl (λ ask tg, common.Add ask (Some (contribution tg))) (placeholderAsk app) tgs.
Proof.
  revert app. induction tgs as [|tg tgs IH]; intros app; cbn [foldl]; [done|].
  by rewrite IH.
Qed.

Lemma foldl_keeps_taskGroups tgs app :
  taskGroups
    (foldl (λ app taskGroup,
              with_placeholderAsk
                (common.Add (placeholderAsk app)
                   (Some (common.GetTGResource (v1alpha1.MinResource taskGroup)
                            (v1alpha1.MinMember taskGroup))))
                app)
           app tgs)
  = taskGroups app.
Proof.
  revert app. induction tgs as [|tg tgs IH]; intros app; cbn [foldl]; [done|].
  by rewrite IH.
Qed.

Lemma totalOf_nonneg tgs k :
  (∀ tg, tg ∈ tgs → 0 ≤ common.quantityOf (Some (contribution tg)) k) →
  0 ≤ totalOf tgs k.
Proof.
  induction tgs as [|tg tgs IH]; intros Hpos; simpl; [lia|].
  pose proof (Hpos tg ltac:(left)).
  assert (0 ≤ totalOf tgs k) by (apply IH; intros; apply Hpos; by right).
  lia.
Qed.

Section AskFacts.
Context (ClusterID : string).
Context (sanityCheckBeforeScheduling : Task.t → option string).
Context (taskHandle : Task.t → string → Task.t * option string).

Lemma scheduleTasks_touch_tasks_only cond tasks acc :
  ∃ m, (foldl (scheduleTask sanityCheckBeforeScheduling taskHandle cond) acc tasks).1
       = with_taskMap m acc.1.
Proof.
  revert acc. induction tasks as [|[key task] tasks IH]; intros acc; cbn [foldl].
  - exists (taskMap acc.1). by rewrite with_taskMap_id.
  - destruct (IH (scheduleTask sanityCheckBeforeScheduling taskHandle cond acc
                    (key, task))) as [m ->].
    exists m. unfold scheduleTask. destruct (cond task); [|done].
    destruct (sanityCheckBeforeScheduling task); [done|].
    by destruct (taskHandle task events.InitTask).
Qed.

Lemma Schedule_keeps_placeholderAsk app :
  placeholderAsk (Schedule ClusterID sanityCheckBeforeScheduling taskHandle app).1
  = placeholderAsk app.
Proof.
  unfold Schedule.
  destruct (String.eqb _ states.New).
  { pose proof (handle_keeps ClusterID placeholderAsk
                  (NewSubmitApplicationEvent (GetApplicationID app)) app
                  (λ _ _, eq_refl) (λ _ _, eq_refl)) as Hkeep.
    by destruct (handle _ _ _) as [[err app'] effs]. }
  destruct (String.eqb _ states.Accepted); [done|].
  destruct (String.eqb _ states.Reserving).
  { unfold scheduleTasks.
    by destruct (scheduleTasks_touch_tasks_only (λ t, Task.placeholder t)
                   (GetNewTasks app) (app, [])) as [m ->]. }
  destruct (String.eqb _ states.Running); [|done].
  unfold scheduleTasks.
  by destruct (scheduleTasks_touch_tasks_only (λ t, negb (Task.placeholder t))
                 (GetNewTasks app) (app, [])) as [m ->].
Qed.

(** C7: [setTaskGroups] starts from the ask that is already there and adds
    the contribution of every group it is given, one [common.Add] per group;
    dimension by dimension the new ask is the old one plus the total of the
    groups, so a second call adds on top of the first, and with contributions
    that are not negative the ask never decreases.  The registered groups
    themselves are replaced.  No other operation of the application changes
    the ask. *)
Theorem placeholder_ask_accumulates (app : Application) :
  (∀ tgs,
     getPlaceholderAsk (setTaskGroups tgs app)
     = foldl (λ ask tg, common.Add ask (Some (contribution tg)))
             (getPlaceholderAsk app) tgs) ∧
  (∀ tgs k,
     common.quantityOf (getPlaceholderAsk (setTaskGroups tgs app)) k
     = common.quantityOf (getPlaceholderAsk app) k + totalOf tgs k) ∧
  (∀ tgs1 tgs2 k,
     common.quantityOf
       (getPlaceholderAsk (setTaskGroups tgs2 (setTaskGroups tgs1 app))) k
     = common.quantityOf (getPlaceholderAsk app) k + totalOf tgs1 k + totalOf tgs2 k ∧
     getTaskGroups (setTaskGroups tgs2 (setTaskGroups tgs1 app)) = tgs2) ∧
  (∀ tgs k,
     (∀ tg, tg ∈ tgs → 0 ≤ common.quantityOf (Some (contribution tg)) k) →
     common.quantityOf (getPlaceholderAsk app) k
     ≤ common.quantityOf (getPlaceholderAsk (setTaskGroups tgs app)) k) ∧
  getPlaceholderAsk (setTaskGroups [] app) = getPlaceholderAsk app ∧
  (∀ ev, getPlaceholderAsk (handle ClusterID ev app).1.2 = getPlaceholderAsk app) ∧
  getPlaceholderAsk (Schedule ClusterID sanityCheckBeforeScheduling taskHandle app).1
    = getPlaceholderAsk app ∧
  (∀ task, getPlaceholderAsk (addTask task app) = getPlaceholderAsk app) ∧
  (∀ taskID, getPlaceholderAsk (removeTask taskID app).1.2 = getPlaceholderAsk app) ∧
  (∀ policy, getPlaceholderAsk (setSchedulingPolicy policy app) = getPlaceholderAsk app) ∧
  (∀ ref, getPlaceholderAsk (setOwnReferences ref app) = getPlaceholderAsk app) ∧
  (∀ timeout, getPlaceholderAsk (SetPlaceholderTimeout timeout app)
              = getPlaceholderAsk app) ∧
  (∀ state, getPlaceholderAsk (SetState state app) = getPlaceholderAsk app).
Proof.
  assert (∀ app tgs k,
            common.quantityOf (getPlaceholderAsk (setTaskGroups tgs app)) k
            = common.quantityOf (getPlaceholderAsk app) k + totalOf tgs k) as Hadd.
  { intros app' tgs k. unfold getPlaceholderAsk, setTaskGroups.
    by rewrite setTaskGroups_fold. }
  assert (∀ app tgs, taskGroups (setTaskGroups tgs app) = tgs) as Hgroups.
  { intros app' tgs. unfold setTaskGroups.
    by rewrite (foldl_keeps_taskGroups tgs (with_taskGroups tgs app')). }
  split; [intros tgs; unfold getPlaceholderAsk, setTaskGroups;
          by rewrite setTaskGroups_ask|].
  split; [exact (Hadd app)|].
  split; [intros tgs1 tgs2 k; split; [by rewrite !Hadd | apply Hgroups]|].
  split.
  { intros tgs k Hpos. rewrite Hadd. pose proof (totalOf_nonneg tgs k Hpos). lia. }
  split; [done|].
  split; [intros ev; by apply (handle_keeps ClusterID placeholderAsk)|].
  split; [apply Schedule_keeps_placeholderAsk|].
  split; [intros task; unfold addTask; by destruct (taskMap app !! _)|].
  split; [intros taskID; unfold removeTask; by destruct (taskMap app !! _)|].
  done.
Qed.

End AskFacts.

(** The second registration of the test groups doubles the ask. *)
Lemma placeholder_ask_registered_twice :
  getPlaceholderAsk
    (setTaskGroups [testGroup1; testGroup2]
       (setTaskGroups [testGroup1; testGroup2] app00001))
  = Some {[ constants.Memory := 52460; constants.CPU := 50000 ]}.
Proof. by vm_compute. Qed.

(** * Further properties of the application *)

(** ** The wiring of the callbacks *)

Section Wiring.
Context (ClusterID : string).

Lemma handle_transitionTo ev app dst :
  fsm.transitions appEvents !! (GetEvent ev, GetApplicationState app) = Some dst →
  handle ClusterID ev app
  = (None, (transitionTo ClusterID ev dst app).1, (transitionTo ClusterID ev dst app).2).
Proof.
  intros Hlook. apply listed_iff in Hlook. unfold listed in Hlook.
  destruct ev as [appID event args]. destruct app. cbn [GetEvent] in Hlook.
  unfold GetApplicationState in Hlook. cbn [sm] in Hlook.
  vm_compute in Hlook.
  repeat (apply elem_of_cons in Hlook as [Hlook|Hlook];
          [injection Hlook as -> -> ->; reflexivity|]).
  by apply elem_of_nil in Hlook.
Qed.

End Wiring.

(** ** [canHandle] and [TriggerAppRecovery] *)

(** X1: [canHandle] answers true exactly for the events [handle] accepts
    without an error. *)
Theorem canHandle_iff_handle_succeeds (ClusterID : string)
    (ev : ApplicationEvent) (app : Application) :
  canHandle ClusterID ev app = true ↔ (handle ClusterID ev app).1.1 = None.
Proof.
  unfold canHandle, fsm.Can. cbn [fsm.events appFSM]. rewrite bool_decide_eq_true.
  destruct (fsm.transitions appEvents !! (GetEvent ev, GetApplicationState app))
    as [dst|] eqn:Hlook.
  - split; [intros _|intros _; exists dst; exact Hlook].
    exact (proj1 (handle_legal ClusterID ev app dst Hlook)).
  - rewrite (handle_illegal ClusterID ev app Hlook). cbn [fst].
    split; [|done]. intros [dst Hdst].
    discriminate (eq_trans (eq_sym Hdst) Hlook).
Qed.

(** X2: [TriggerAppRecovery] succeeds from New, where it moves the
    application to Recovering; from any other state it changes nothing and
    returns the error "event RecoverApplication inappropriate in current
    state" followed by the state. *)
Theorem TriggerAppRecovery_only_from_New (ClusterID : string) (app : Application) :
  let r := TriggerAppRecovery ClusterID app in
  (GetApplicationState app = states.New →
     r.1.1 = None ∧ r.1.2 = SetState states.Recovering app) ∧
  (GetApplicationState app ≠ states.New →
     r.1.2 = app ∧ r.2 = [] ∧
     fsm.Error_string <$> r.1.1
     = Some ("event RecoverApplication inappropriate in current state "
             +:+ GetApplicationState app)).
Proof.
  cbv zeta. unfold TriggerAppRecovery, NewSimpleApplicationEvent. split.
  - intros Hstate. by rewrite handle_Recover_New.
  - intros Hstate.
    assert (fsm.transitions appEvents
              !! (events.RecoverApplication, GetApplicationState app) = None) as Hnone.
    { destruct (_ !! _) as [dst|] eqn:Hlook; [|done].
      apply listed_iff in Hlook. unfold listed in Hlook. revert Hlook Hstate.
      generalize (GetApplicationState app). intros s Hin Hs.
      vm_compute in Hin.
      repeat (apply elem_of_cons in Hin as [Hin|Hin]; [by simplify_eq|]).
      by apply elem_of_nil in Hin. }
    rewrite handle_illegal by done. done.
Qed.

(** The second half on the application of [TestTriggerAppRecovery]. *)
Lemma TriggerAppRecovery_after_submit :
  fsm.Error_string <$> (TriggerAppRecovery testClusterID submittedApp).1.1
  = Some "event RecoverApplication inappropriate in current state Submitted".
Proof. by vm_compute. Qed.

(** ** The shape of the life cycle *)

(** X3: the life cycle only moves forward.  Whatever event is handled, the
    application either stays in its state or moves to a state of strictly
    higher rank; it never comes back to a state it has left. *)
Theorem handle_moves_forward (ClusterID : string)
    (ev : ApplicationEvent) (app : Application) :
  let after := GetApplicationState (handle ClusterID ev app).1.2 in
  after = GetApplicationState app ∨
  (stateRank (GetApplicationState app) < stateRank after)%nat.
Proof.
  cbv zeta.
  destruct (fsm.transitions appEvents !! (GetEvent ev, GetApplicationState app))
    as [dst|] eqn:Hlook.
  - destruct (handle_legal ClusterID ev app dst Hlook) as [_ ->].
    apply listed_iff in Hlook. unfold listed in Hlook.
    assert (Forall (λ t : string * string * string,
                      t.2 = t.1.2 ∨ (stateRank t.1.2 < stateRank t.2)%nat)
                   pairs_4_2) as Hall.
    { apply (bool_decide_unpack _). by vm_compute. }
    rewrite Forall_forall in Hall. exact (Hall _ Hlook).
  - rewrite (handle_illegal ClusterID ev app Hlook). by left.
Qed.

(** X4: Completed and Killed are dead ends: every event is refused with an
    error and nothing happens.  Failed keeps the application: whatever is
    handled there, the state stays Failed.  From Rejected the only way on is
    to Failed. *)
Theorem terminal_states (ClusterID : string)
    (ev : ApplicationEvent) (app : Application) :
  let r := handle ClusterID ev app in
  (GetApplicationState app ∈ [states.Completed; states.Killed] →
     r.1.1 ≠ None ∧ r.1.2 = app ∧ r.2 = []) ∧
  (GetApplicationState app = states.Failed →
     GetApplicationState r.1.2 = states.Failed) ∧
  (GetApplicationState app = states.Rejected →
     GetApplicationState r.1.2 ∈ [states.Rejected; states.Failed]).
Proof.
  cbv zeta.
  destruct (fsm.transitions appEvents !! (GetEvent ev, GetApplicationState app))
    as [dst|] eqn:Hlook.
  - destruct (handle_legal ClusterID ev app dst Hlook) as [_ ->].
    apply listed_iff in Hlook. unfold listed in Hlook.
    assert (Forall (λ t : string * string * string,
                      (t.1.2 ∉ [states.Completed; states.Killed]) ∧
                      (t.1.2 = states.Failed → t.2 = states.Failed) ∧
                      (t.1.2 = states.Rejected →
                       t.2 ∈ [states.Rejected; states.Failed]))
                   pairs_4_2) as Hall.
    { apply (bool_decide_unpack _). by vm_compute. }
    rewrite Forall_forall in Hall.
    destruct (Hall _ Hlook) as (Hnot & Hfailed & Hrejected).
    split; [by intros Hin; destruct (Hnot Hin)|]. by split.
  - rewrite (handle_illegal ClusterID ev app Hlook). cbn [fst snd].
    split; [by intros _|]. split; [done|].
    intros ->. apply elem_of_cons. by left.
Qed.

(** ** The task collection *)

(** X5: [addTask] never replaces a task.  After the call the identifier of
    the task maps to the task that was there before, or to the new task when
    there was none; every other identifier is untouched, and adding any task
    with the same identifier again changes nothing. *)
Theorem addTask_keeps_the_first (task : Task.t) (app : Application) :
  let app' := addTask task app in
  GetTask (Task.taskID task) app'
    = inr (default task (taskMap app !! Task.taskID task)) ∧
  (∀ taskID, taskID ≠ Task.taskID task →
             GetTask taskID app' = GetTask taskID app) ∧
  (∀ other, Task.taskID other = Task.taskID task → addTask other app' = app').
Proof.
  cbv zeta. unfold addTask, GetTask.
  destruct (taskMap app !! Task.taskID task) as [old|] eqn:Hlook.
  - rewrite Hlook. cbn [default from_option id]. split; [done|]. split; [done|].
    intros other ->. by rewrite Hlook.
  - cbn [taskMap with_taskMap applicationID]. rewrite lookup_insert_eq.
    split; [done|]. split.
    + intros taskID Hne. by rewrite lookup_insert_ne.
    + intros other ->. cbn [taskMap with_taskMap]. by rewrite lookup_insert_eq.
Qed.

(** X6: [removeTask] fails exactly when the identifier is not owned, and then
    changes nothing; the error names the task and the application.  When it
    succeeds the task is gone, every other task is untouched, and a second
    removal of the same identifier fails. *)
Theorem removeTask_spec (taskID : string) (app : Application) :
  let r := removeTask taskID app in
  (r.1.1 = None ↔ is_Some (taskMap app !! taskID)) ∧
  (taskMap app !! taskID = None →
     r = (Some ("task " +:+ taskID +:+ " is not found in application "
                +:+ applicationID app), app, [])) ∧
  taskMap r.1.2 !! taskID = None ∧
  (∀ other, other ≠ taskID → taskMap r.1.2 !! other = taskMap app !! other) ∧
  (removeTask taskID r.1.2).1.1 ≠ None.
Proof.
  cbv zeta.
  destruct (taskMap app !! taskID) as [task|] eqn:Hlook.
  - assert (removeTask taskID app
            = (None, with_taskMap (delete taskID (taskMap app)) app,
               [Log "info" "task removed"])) as ->
      by (unfold removeTask; by rewrite Hlook).
    cbn [fst snd taskMap with_taskMap].
    split; [by split; eauto|]. split; [done|].
    rewrite lookup_delete_eq. split; [done|]. split.
    + intros other Hne. by rewrite lookup_delete_ne.
    + unfold removeTask. cbn [taskMap with_taskMap]. by rewrite lookup_delete_eq.
  - assert (removeTask taskID app
            = (Some ("task " +:+ taskID +:+ " is not found in application "
                     +:+ applicationID app), app, [])) as Hr
      by (unfold removeTask; by rewrite Hlook).
    rewrite Hr. cbn [fst snd]. rewrite Hr. cbn [fst].
    split; [split; [done|by intros [? ?]]|]. by repeat split.
Qed.

(** X7: adding a task under an identifier the application does not own and
    removing it again gives back the application as it was. *)
Theorem removeTask_addTask (task : Task.t) (app : Application) :
  taskMap app !! Task.taskID task = None →
  removeTask (Task.taskID task) (addTask task app)
  = (None, app, [Log "info" "task removed"]).
Proof.
  intros Hfresh. unfold addTask. rewrite Hfresh. unfold removeTask.
  cbn [taskMap with_taskMap]. rewrite lookup_insert_eq.
  rewrite delete_insert_eq, delete_id by done.
  by destruct app.
Qed.

Lemma removeTask_addTask_app00001 :
  taskMap app00001 !! "task01" = None ∧
  (removeTask "task01"
     (addTask (newTask "task01" false "" events.States.Task.New 1) app00001)).1.2
  = app00001.
Proof.
  split; [by vm_compute|].
  exact (f_equal (λ r : option string * Application * Trace, r.1.2)
           (removeTask_addTask (newTask "task01" false "" events.States.Task.New 1)
              app00001 eq_refl)).
Defined.

#[local] Instance createdBefore_total : Total createdBefore.
Proof. intros l r. unfold createdBefore. lia. Qed.

#[local] Instance createdBefore_transitive : Transitive createdBefore.
Proof. intros x y z. unfold createdBefore. lia. Qed.

(** X8: the list [getTasks] returns for a state holds exactly the owned
    tasks in that state, each once, in the order of their creation time:
    no task is listed before one created earlier. *)
Theorem getTasks_sorted_by_creation (state : string) (app : Application) :
  StronglySorted (λ l r, Task.createTime l.2 ≤ Task.createTime r.2)
                 (getTasks state app) ∧
  NoDup (getTasks state app).*1 ∧
  (∀ key task, (key, task) ∈ getTasks state app ↔
               taskMap app !! key = Some task ∧ Task.GetTaskState task = state) ∧
  length (getTasks state app)
  = countTasks (λ task, Task.GetTaskState task = state) app.
Proof.
  split; [apply (StronglySorted_merge_sort createdBefore)|].
  split.
  - rewrite getTasks_Permutation.
    apply (sublist_NoDup _ (map_to_list (taskMap app)).*1).
    + apply NoDup_fst_map_to_list.
    + apply fmap_sublist, sublist_filter.
  - split; [intros key task; apply elem_of_getTasks|apply length_getTasks].
Qed.

(** ** The Fail callback on well-formed arguments *)

Lemma filter_or_disjoint {A} (P Q : A → Prop)
    `{∀ x, Decision (P x)} `{∀ x, Decision (Q x)} (l : list A) :
  (∀ x, P x → Q x → False) →
  filter P l ++ filter Q l ≡ₚ filter (λ x, P x ∨ Q x) l.
Proof.
  intros Hdisjoint. induction l as [|x l IH]; [done|].
  rewrite !filter_cons.
  destruct (decide (P x)) as [HP|HP], (decide (Q x)) as [HQ|HQ].
  - by destruct (Hdisjoint x).
  - rewrite decide_True by auto. cbn. by rewrite IH.
  - rewrite decide_True by auto. rewrite <- Permutation_middle. by rewrite IH.
  - rewrite decide_False by tauto. done.
Qed.

Lemma unallocated_Permutation app :
  getTasks events.States.Task.New app
    ++ getTasks events.States.Task.Pending app
    ++ getTasks events.States.Task.Scheduling app
  ≡ₚ filter (λ kt : string * Task.t,
               Task.state kt.2 ∈ [events.States.Task.New; events.States.Task.Pending;
                                  events.States.Task.Scheduling])
            (map_to_list (taskMap app)).
Proof.
  rewrite !getTasks_Permutation. unfold Task.GetTaskState.
  rewrite (filter_or_disjoint
             (λ kt : string * Task.t, Task.state kt.2 = events.States.Task.Pending)
             (λ kt : string * Task.t, Task.state kt.2 = events.States.Task.Scheduling))
    by (intros kt -> ?; discriminate).
  rewrite (filter_or_disjoint
             (λ kt : string * Task.t, Task.state kt.2 = events.States.Task.New))
    by (intros kt -> [?|?]; discriminate).
  erewrite list_filter_iff; [done|].
  intros kt. cbn beta. rewrite !elem_of_cons, elem_of_nil. tauto.
Qed.

Lemma warnings_of_tasks (tasks : list (string * Task.t)) reason message :
  warnings (map (λ kt : string * Task.t,
                   RecorderEvent kt.1 "Warning" reason message) tasks)
  = (λ key, (key, reason, message)) <$> tasks.*1.
Proof. induction tasks as [|kt tasks IH]; [done|]. cbn. by f_equal. Qed.

Lemma handle_Fail_message ClusterID app appID message :
  GetApplicationState app ∈
    [states.Submitted; states.Rejected; states.Accepted; states.Running;
     states.Reserving] →
  handle ClusterID (NewFailApplicationEvent appID message) app
  = (None, SetState states.Failed app,
     Log "debug" "shim app state transition"
     :: Go (cleanUp (applicationID app))
     :: map (λ kt : string * Task.t,
               RecorderEvent kt.1 "Warning" "ApplicationFailed"
                 ("Application " +:+ applicationID app
                  +:+ " scheduling failed, reason: " +:+ message))
            ((getTasks events.States.Task.New app
              ++ getTasks events.States.Task.Pending app)
             ++ getTasks events.States.Task.Scheduling app)).
Proof.
  intros Hstate. unfold NewFailApplicationEvent.
  by rewrite handle_Fail by done.
Qed.

(** X9: a Fail event with a message, handled in a state where it is legal,
    records exactly one warning for every owned task that is in state New,
    Pending or Scheduling and none for any other task; each warning has the
    reason "ApplicationFailed" and carries the application identifier and the
    message.  No pod is deleted. *)
Theorem Fail_warns_every_unallocated_task (ClusterID : string)
    (app : Application) (appID message : string) :
  GetApplicationState app ∈
    [states.Submitted; states.Rejected; states.Accepted; states.Running;
     states.Reserving] →
  let r := handle ClusterID (NewFailApplicationEvent appID message) app in
  let text := "Application " +:+ applicationID app
              +:+ " scheduling failed, reason: " +:+ message in
  let unallocated (task : Task.t) :=
    Task.state task ∈ [events.States.Task.New; events.States.Task.Pending;
                       events.States.Task.Scheduling] in
  r.1.1 = None ∧ r.1.2 = SetState states.Failed app ∧
  NoDup (warnings r.2) ∧
  (∀ key reason msg,
     (key, reason, msg) ∈ warnings r.2 ↔
     reason = "ApplicationFailed" ∧ msg = text ∧
     ∃ task, taskMap app !! key = Some task ∧ unallocated task) ∧
  length (warnings r.2) = countTasks unallocated app ∧
  deletions r.2 = [].
Proof.
  intros Hstate. cbv zeta. rewrite handle_Fail_message by done. cbn [fst snd].
  set (text := "Application " +:+ applicationID app
               +:+ " scheduling failed, reason: " +:+ message).
  set (tasks := (getTasks events.States.Task.New app ++ _) ++ _).
  assert (tasks ≡ₚ filter (λ kt : string * Task.t,
                             Task.state kt.2 ∈ [events.States.Task.New;
                                                events.States.Task.Pending;
                                                events.States.Task.Scheduling])
                          (map_to_list (taskMap app))) as Htasks.
  { unfold tasks. rewrite <- app_assoc. apply (unallocated_Permutation app). }
  assert (∀ trace, warnings (Log "debug" "shim app state transition"
                             :: Go (cleanUp (applicationID app)) :: trace)
                   = warnings trace) as Hskip by done.
  rewrite Hskip, warnings_of_tasks.
  split; [done|]. split; [done|]. split; [|split; [|split]].
  - apply NoDup_fmap_2; [by intros k1 k2 [= ->]|]. rewrite Htasks.
    apply (sublist_NoDup _ (map_to_list (taskMap app)).*1).
    + apply NoDup_fst_map_to_list.
    + apply fmap_sublist, sublist_filter.
  - intros key reason msg. rewrite list_elem_of_fmap. split.
    + intros (key' & Heq & Hin). injection Heq as -> -> ->.
      apply list_elem_of_fmap in Hin as ([key task] & -> & Hin). cbn [fst].
      rewrite Htasks in Hin. apply list_elem_of_filter in Hin as [Hun Hin].
      apply elem_of_map_to_list in Hin. eauto.
    + intros (-> & -> & task & Hlook & Hun). exists key. split; [done|].
      apply list_elem_of_fmap. exists (key, task). split; [done|].
      rewrite Htasks. apply list_elem_of_filter. split; [done|].
      by apply elem_of_map_to_list.
  - rewrite !length_fmap, Htasks. done.
  - unfold deletions. cbn [omap list_omap]. clear.
    induction tasks as [|kt tasks IH]; [done|]. cbn. exact IH.
Qed.

(** The application of [TestFailApplication]: of four tasks in New, Pending,
    Scheduling and Allocated, three are warned. *)
Lemma Fail_on_the_test_application :
  let app :=
    SetState states.Accepted
      (addTask (newTask "task04" false "" events.States.Task.Allocated 4)
         (addTask (newTask "task03" false "" events.States.Task.Scheduling 3)
            (addTask (newTask "task02" false "" events.States.Task.Pending 2)
               (addTask (newTask "task01" false "" events.States.Task.New 1)
                  app00001)))) in
  let r := handle testClusterID
             (NewFailApplicationEvent "app00001" "Test Error Message") app in
  GetApplicationState app ∈
    [states.Submitted; states.Rejected; states.Accepted; states.Running;
     states.Reserving] ∧
  GetApplicationState r.1.2 = states.Failed ∧
  length (warnings r.2) = 3%nat.
Proof.
  cbv zeta.
  match goal with |- GetApplicationState ?a ∈ _ ∧ _ => set (app := a) end.
  assert (GetApplicationState app ∈
            [states.Submitted; states.Rejected; states.Accepted; states.Running;
             states.Reserving]) as Hstate
    by (apply (bool_decide_unpack _); by vm_compute).
  split; [exact Hstate|].
  destruct (Fail_warns_every_unallocated_task testClusterID app "app00001"
              "Test Error Message" Hstate) as (_ & -> & _ & _ & -> & _).
  split; [done|]. by vm_compute.
Defined.

(** ** Releasing an allocation *)

Lemma handle_ReleaseAppAllocation ClusterID appID args app :
  GetApplicationState app ∈ [states.Running; states.Failed] →
  let r := handleReleaseAppAllocationEvent
             (fsmEvent events.ReleaseAppAllocation (GetApplicationState app)
                (GetApplicationState app) args) app in
  handle ClusterID
    {| GetApplicationID_ev := appID; GetEvent := events.ReleaseAppAllocation;
       GetArgs := args |} app
  = (None, r.1, r.2).
Proof.
  destruct app. simpl. intros Hin.
  repeat (apply elem_of_cons in Hin as [->|Hin]; [reflexivity|]).
  by apply elem_of_nil in Hin.
Qed.

(** X10: a ReleaseAllocation event, handled in Running or Failed, records the
    termination reason on every owned task whose allocation identifier is
    the one released and requests the deletion of the pod of each of them
    once, placeholder or not; every other task is left as it is and the
    state does not change. *)
Theorem release_allocation_deletes_every_match (ClusterID : string)
    (app : Application) (appID terminationType allocationUUID : string) :
  GetApplicationState app ∈ [states.Running; states.Failed] →
  let r := handle ClusterID
             (NewReleaseAppAllocationEvent appID terminationType allocationUUID) app in
  r.1.1 = None ∧
  GetApplicationState r.1.2 = GetApplicationState app ∧
  (∀ key,
     taskMap r.1.2 !! key
     = (λ task, if bool_decide (Task.allocationUUID task = allocationUUID)
                then Task.setTaskTerminationType terminationType task
                else task) <$> taskMap app !! key) ∧
  NoDup (deletions r.2) ∧
  (∀ key, key ∈ deletions r.2 ↔
          ∃ task, taskMap app !! key = Some task ∧
                  Task.allocationUUID task = allocationUUID).
Proof.
  intros Hstate. cbv zeta. unfold NewReleaseAppAllocationEvent.
  rewrite handle_ReleaseAppAllocation by done. cbv zeta.
  unfold handleReleaseAppAllocationEvent, fsmEvent. cbn [fsm.Args].
  change (events.GetEventArgsAsStrings 2 _)
    with (inr [allocationUUID; terminationType] : string + list string).
  cbn [nth fst snd taskMap with_taskMap].
  split; [done|]. split; [done|]. split; [intros key; by rewrite lookup_fmap|].
  assert (∀ tasks : list (string * Task.t),
            deletions (Log "info" "try to release pod from application"
                       :: map (λ kt : string * Task.t, DeleteTaskPod kt.1) tasks)
            = tasks.*1) as Hdel.
  { intros tasks. unfold deletions. cbn [omap list_omap].
    induction tasks as [|kt tasks IH]; [done|]. cbn. by f_equal. }
  rewrite Hdel. split.
  - apply (sublist_NoDup _ (map_to_list (taskMap app)).*1).
    + apply NoDup_fst_map_to_list.
    + apply fmap_sublist, sublist_filter.
  - intros key. rewrite list_elem_of_fmap. split.
    + intros ([key' task] & -> & Hin).
      apply list_elem_of_filter in Hin as [Hhit Hin].
      apply bool_decide_eq_true in Hhit. apply elem_of_map_to_list in Hin. eauto.
    + intros (task & Hlook & Huuid). exists (key, task). split; [done|].
      apply list_elem_of_filter. split; [by apply bool_decide_eq_true|].
      by apply elem_of_map_to_list.
Qed.

(** On the running fixture the workload task and the placeholder of the
    released allocation both lose their pod; the task allocated elsewhere
    keeps it. *)
Lemma release_allocation_on_runningApp :
  let r := handle testClusterID
             (NewReleaseAppAllocationEvent "app00001" "TIMEOUT" "testUUID001")
             runningApp in
  GetApplicationState runningApp ∈ [states.Running; states.Failed] ∧
  ("task01" ∈ deletions r.2 ∧ "task02" ∈ deletions r.2 ∧ "task03" ∉ deletions r.2) ∧
  Task.terminationType <$> taskMap r.1.2 !! "task03" = Some "".
Proof.
  cbv zeta.
  assert (GetApplicationState runningApp ∈ [states.Running; states.Failed]) as Hstate
    by (apply (bool_decide_unpack _); by vm_compute).
  split; [exact Hstate|].
  destruct (release_allocation_deletes_every_match testClusterID runningApp
              "app00001" "TIMEOUT" "testUUID001" Hstate) as (_ & _ & Hmap & _ & Hdel).
  split.
  - rewrite !Hdel. split; [|split].
    + exists (allocatedTask "task01" false "testUUID001" 1). by vm_compute.
    + exists (allocatedTask "task02" true "testUUID001" 2). by vm_compute.
    + intros (task & Hlook & Huuid).
      assert (taskMap runningApp !! "task03"
              = Some (allocatedTask "task03" false "UUID-other" 3)) as Hl
        by (by vm_compute).
      rewrite Hl in Hlook. injection Hlook as <-. discriminate Huuid.
  - rewrite Hmap.
    assert (taskMap runningApp !! "task03"
            = Some (allocatedTask "task03" false "UUID-other" 3)) as ->
      by (by vm_compute).
    reflexivity.
Defined.

(** ** The goroutines a transition starts *)

Lemma goroutines_app (t1 t2 : Trace) :
  goroutines (t1 ++ t2) = goroutines t1 ++ goroutines t2.
Proof. apply omap_app. Qed.

Lemma goroutines_submitted app request : goroutines (submitted app request) = [].
Proof. unfold submitted. by destruct (schedulerAPI app request). Qed.

Lemma goroutines_afterCallback ClusterID event e (st : Application * Trace) :
  goroutines (invoke (afterCallback ClusterID event) e st).2
  = goroutines st.2
    ++ (if String.eqb event events.CompleteApplication
           || String.eqb event events.FailApplication
        then [cleanUp (applicationID st.1)] else []).
Proof.
  unfold afterCallback.
  destruct (String.eqb_spec event events.SubmitApplication) as [->|?].
  { cbn [invoke fst snd]. rewrite goroutines_app. f_equal.
    unfold handleSubmitApplicationEvent. cbn [snd]. apply goroutines_submitted. }
  destruct (String.eqb_spec event events.RecoverApplication) as [->|?].
  { cbn [invoke fst snd]. rewrite goroutines_app. f_equal.
    unfold handleRecoverApplicationEvent. cbn [snd]. apply goroutines_submitted. }
  destruct (String.eqb_spec event events.RejectApplication) as [->|?].
  { cbn [invoke fst snd]. rewrite goroutines_app. by f_equal. }
  destruct (String.eqb_spec event events.CompleteApplication) as [->|?].
  { cbn [invoke fst snd]. rewrite goroutines_app. by f_equal. }
  destruct (String.eqb_spec event events.FailApplication) as [->|?].
  { cbn [invoke fst snd orb]. rewrite goroutines_app. f_equal.
    unfold handleFailApplicationEvent. cbn [snd].
    destruct (events.GetEventArgsAsStrings 1 (fsm.Args e)); [done|].
    unfold goroutines. cbn [omap list_omap]. f_equal.
    induction (_ ++ _) as [|kt tasks IH]; [done|]. exact IH. }
  destruct (String.eqb_spec event events.UpdateReservation) as [->|?].
  { cbn [invoke fst snd orb]. rewrite goroutines_app. f_equal.
    unfold onReservationStateChange. cbn [snd]. by destruct (utils.Equals _ _). }
  destruct (String.eqb_spec event events.ReleaseAppAllocation) as [->|?].
  { cbn [invoke fst snd orb]. rewrite goroutines_app. f_equal.
    unfold handleReleaseAppAllocationEvent.
    destruct (events.GetEventArgsAsStrings 2 (fsm.Args e)); [done|].
    cbn [snd]. unfold goroutines. cbn [omap list_omap].
    induction (filter _ _) as [|kt tasks IH]; [done|]. exact IH. }
  destruct (String.eqb_spec event events.ReleaseAppAllocationAsk) as [->|?].
  { cbn [invoke fst snd orb]. rewrite goroutines_app. f_equal.
    unfold handleReleaseAppAllocationAskEvent.
    destruct (events.GetEventArgsAsStrings 2 (fsm.Args e)); [done|].
    destruct (taskMap st.1 !! _); [|done]. cbn [snd].
    by destruct (Task.IsPlaceholder _). }
  cbn [invoke orb]. by rewrite app_nil_r.
Qed.

(** X11: which goroutines handling an event starts.  The creation of the
    placeholders is started by TryReserve in Accepted and by nothing else,
    in particular not by UpdateReservation; the cleanup of the placeholders
    is started by Complete in Running and by Fail in each of its five source
    states.  Either is started once, for this application; no other event
    starts a goroutine, and an event that is refused starts none. *)
Theorem goroutines_started (ClusterID : string)
    (ev : ApplicationEvent) (app : Application) :
  goroutines (handle ClusterID ev app).2
  = (if bool_decide (GetEvent ev = events.TryReserve ∧
                     GetApplicationState app = states.Accepted)
     then [createAppPlaceholders (applicationID app)] else [])
    ++ (if bool_decide
             ((GetEvent ev = events.CompleteApplication ∧
               GetApplicationState app = states.Running) ∨
              (GetEvent ev = events.FailApplication ∧
               GetApplicationState app ∈
                 [states.Submitted; states.Rejected; states.Accepted;
                  states.Running; states.Reserving]))
        then [cleanUp (applicationID app)] else []).
Proof.
  destruct (fsm.transitions appEvents !! (GetEvent ev, GetApplicationState app))
    as [dst|] eqn:Hlook.
  - rewrite (handle_transitionTo ClusterID ev app dst Hlook). cbn [snd].
    apply listed_iff in Hlook. unfold listed in Hlook.
    assert (Forall (λ t : string * string * string,
              (negb (String.eqb t.1.2 t.2) && String.eqb t.2 states.Reserving = true
               ↔ t.1.1 = events.TryReserve ∧ t.1.2 = states.Accepted) ∧
              (String.eqb t.1.1 events.CompleteApplication
               || String.eqb t.1.1 events.FailApplication = true
               ↔ (t.1.1 = events.CompleteApplication ∧ t.1.2 = states.Running) ∨
                 (t.1.1 = events.FailApplication ∧
                  t.1.2 ∈ [states.Submitted; states.Rejected; states.Accepted;
                           states.Running; states.Reserving])))
              pairs_4_2) as Hall.
    { apply (bool_decide_unpack _). by vm_compute. }
    rewrite Forall_forall in Hall. destruct (Hall _ Hlook) as [Henter Hafter].
    cbn [fst snd] in Henter, Hafter. clear Hall Hlook.
    assert (goroutines (transitionTo ClusterID ev dst app).2
            = (if negb (String.eqb (GetApplicationState app) dst)
                  && String.eqb dst states.Reserving
               then [createAppPlaceholders (applicationID app)] else [])
              ++ (if String.eqb (GetEvent ev) events.CompleteApplication
                     || String.eqb (GetEvent ev) events.FailApplication
                  then [cleanUp (applicationID app)] else [])) as ->.
    { unfold transitionTo.
      destruct (String.eqb (GetApplicationState app) dst); cbn [negb andb].
      - by rewrite goroutines_afterCallback.
      - rewrite goroutines_afterCallback. cbn [invoke fst snd enterState].
        rewrite goroutines_app. unfold enterCallback.
        destruct (String.eqb dst states.Reserving); cbn [invoke fst snd];
          [|by destruct (_ || _)].
        cbn. by destruct (_ || _). }
    destruct (negb _ && _), (_ || _); repeat case_bool_decide;
      try done; intuition discriminate.
  - rewrite (handle_illegal ClusterID ev app Hlook). cbn [snd goroutines omap list_omap].
    assert (Forall (λ t : string * string,
                      is_Some (fsm.transitions appEvents !! t))
                   [ (events.TryReserve, states.Accepted);
                     (events.CompleteApplication, states.Running);
                     (events.FailApplication, states.Submitted);
                     (events.FailApplication, states.Rejected);
                     (events.FailApplication, states.Accepted);
                     (events.FailApplication, states.Running);
                     (events.FailApplication, states.Reserving) ]) as Hall.
    { apply (bool_decide_unpack _). by vm_compute. }
    rewrite Forall_forall in Hall.
    assert (∀ e s, (e, s) ∈ [ (events.TryReserve, states.Accepted);
                     (events.CompleteApplication, states.Running);
                     (events.FailApplication, states.Submitted);
                     (events.FailApplication, states.Rejected);
                     (events.FailApplication, states.Accepted);
                     (events.FailApplication, states.Running);
                     (events.FailApplication, states.Reserving) ] →
                   fsm.transitions appEvents !! (e, s) = None → False) as Hno.
    { intros e s Hin Hnone. destruct (Hall _ Hin) as [d Hd].
      discriminate (eq_trans (eq_sym Hd) Hnone). }
    rewrite bool_decide_eq_false_2.
    + rewrite bool_decide_eq_false_2; [done|].
      intros [[He Hs]|[He Hs]];
        apply (Hno (GetEvent ev) (GetApplicationState app)); try done;
        rewrite He.
      * rewrite Hs. apply (bool_decide_unpack _). by vm_compute.
      * revert Hs. generalize (GetApplicationState app). intros s.
        rewrite !elem_of_cons, elem_of_nil.
        intros [->|[->|[->|[->|[->|[]]]]]];
          apply (bool_decide_unpack _); by vm_compute.
    + intros [He Hs]. apply (Hno (GetEvent ev) (GetApplicationState app)); [|done].
      rewrite He, Hs. apply (bool_decide_unpack _). by vm_compute.
Qed.

(** ** Submission, and what follows a failure or a rejection *)

Lemma dispatched_submitted app request :
  dispatched (submitted app request)
  = match schedulerAPI app request with
    | Some err => [NewFailApplicationEvent (applicationID app) err]
    | None => []
    end.
Proof. unfold submitted. by destruct (schedulerAPI app request). Qed.

(** X12: [Schedule] on an application in state New does what handling Submit
    does: the application becomes Submitted and one update request goes to
    the scheduler.  When the scheduler refuses the request with an error, the
    submission still completes and exactly one Fail event carrying that
    error is dispatched, which takes the application to Failed; when the
    scheduler accepts it, nothing is dispatched. *)
Theorem failed_submission_dispatches_Fail (ClusterID : string)
    (sanityCheckBeforeScheduling : Task.t → option string)
    (taskHandle : Task.t → string → Task.t * option string)
    (app : Application) :
  GetApplicationState app = states.New →
  let request :=
    {| si.NewApplications :=
         [ {| si.ApplicationID := applicationID app;
              si.QueueName := queue app;
              si.PartitionName := partition app;
              si.Ugi_User := user app;
              si.Tags := tags app;
              si.PlaceholderAsk := placeholderAsk app;
              si.ExecutionTimeoutMilliSeconds :=
                wrap64 (placeholderTimeoutInSec app * 1000) |} ];
       si.RmID := ClusterID |} in
  let r := Schedule ClusterID sanityCheckBeforeScheduling taskHandle app in
  r = ((handle ClusterID (NewSubmitApplicationEvent (applicationID app)) app).1.2,
       (handle ClusterID (NewSubmitApplicationEvent (applicationID app)) app).2) ∧
  r.1 = SetState states.Submitted app ∧
  updates r.2 = [request] ∧
  dispatched r.2
  = match schedulerAPI app request with
    | Some err => [NewFailApplicationEvent (applicationID app) err]
    | None => []
    end ∧
  (∀ err, GetApplicationState
            (handle ClusterID (NewFailApplicationEvent (applicationID app) err) r.1).1.2
          = states.Failed).
Proof.
  intros Hstate. cbv zeta.
  assert (Schedule ClusterID sanityCheckBeforeScheduling taskHandle app
          = ((handle ClusterID (NewSubmitApplicationEvent (applicationID app)) app).1.2,
             (handle ClusterID (NewSubmitApplicationEvent (applicationID app)) app).2))
    as ->.
  { unfold Schedule. rewrite Hstate. cbn [String.eqb Ascii.eqb Bool.eqb states.New].
    unfold GetApplicationID, NewSubmitApplicationEvent, NewSimpleApplicationEvent.
    rewrite handle_Submit_New by done. cbn [fst snd]. by rewrite app_nil_r. }
  split; [done|]. unfold NewSubmitApplicationEvent, NewSimpleApplicationEvent.
  rewrite handle_Submit_New by done. cbn [fst snd].
  split; [done|].
  unfold handleSubmitApplicationEvent. cbn [snd].
  change (updates (?a :: ?b :: ?t)) with (updates t).
  change (dispatched (?a :: ?b :: ?t)) with (dispatched t).
  rewrite updates_submitted, dispatched_submitted.
  split; [done|]. split; [done|].
  intros err. unfold NewFailApplicationEvent. by rewrite handle_Fail by set_solver.
Qed.

(** With a scheduler that refuses every update. *)
Lemma failed_submission_of_unluckyApp :
  let r := Schedule testClusterID mockSanityCheck mockTaskHandle unluckyApp in
  GetApplicationState unluckyApp = states.New ∧
  GetApplicationState r.1 = states.Submitted ∧
  dispatched r.2 = [NewFailApplicationEvent "app00002" "rejected by the core"].
Proof.
  cbv zeta. split; [by vm_compute|].
  destruct (failed_submission_dispatches_Fail testClusterID mockSanityCheck
              mockTaskHandle unluckyApp eq_refl) as (_ & -> & _ & -> & _).
  split; reflexivity.
Defined.

Lemma handle_Reject_Submitted ClusterID appID args app :
  GetApplicationState app = states.Submitted →
  handle ClusterID
    {| GetApplicationID_ev := appID; GetEvent := events.RejectApplication;
       GetArgs := args |} app
  = (None, SetState states.Rejected app,
     [Log "debug" "shim app state transition";
      Log "info" "app is rejected by scheduler";
      Dispatch (NewFailApplicationEvent (applicationID app)
                  ("application " +:+ applicationID app
                   +:+ " is rejected by scheduler"))]).
Proof. destruct app. simpl. intros ->. reflexivity. Qed.

(** X13: a rejected application is moved on to Failed.  Reject, legal in
    Submitted only, takes the application to Rejected and dispatches exactly
    one Fail event whose message names the application as rejected by the
    scheduler; handling that event takes the application to Failed, and
    every warning it records carries that message. *)
Theorem rejection_ends_in_Failed (ClusterID : string)
    (app : Application) (appID : string) (args : list events.Arg) :
  GetApplicationState app = states.Submitted →
  let r := handle ClusterID
             {| GetApplicationID_ev := appID; GetEvent := events.RejectApplication;
                GetArgs := args |} app in
  let message := "application " +:+ applicationID app +:+ " is rejected by scheduler" in
  r.1.1 = None ∧ r.1.2 = SetState states.Rejected app ∧
  dispatched r.2 = [NewFailApplicationEvent (applicationID app) message] ∧
  ∀ ev, ev ∈ dispatched r.2 →
    let r' := handle ClusterID ev r.1.2 in
    r'.1.1 = None ∧ GetApplicationState r'.1.2 = states.Failed ∧
    ∀ key reason msg, (key, reason, msg) ∈ warnings r'.2 →
      msg = "Application " +:+ applicationID app
            +:+ " scheduling failed, reason: " +:+ message.
Proof.
  intros Hstate. cbv zeta. rewrite handle_Reject_Submitted by done. cbn [fst snd].
  split; [done|]. split; [done|]. split; [done|].
  intros ev Hev. apply list_elem_of_singleton in Hev. subst ev.
  rewrite handle_Fail_message by (apply (bool_decide_unpack _); by vm_compute).
  cbn [fst snd]. split; [done|]. split; [done|].
  intros key reason msg Hin.
  change (warnings (?a :: ?b :: ?t)) with (warnings t) in Hin.
  rewrite warnings_of_tasks in Hin.
  by apply list_elem_of_fmap in Hin as (key' & [= -> -> ->] & _).
Qed.

Lemma rejection_of_submittedApp :
  let r := handle testClusterID
             (NewSimpleApplicationEvent "app00001" events.RejectApplication)
             submittedApp in
  GetApplicationState submittedApp = states.Submitted ∧
  GetApplicationState r.1.2 = states.Rejected ∧
  dispatched r.2
  = [NewFailApplicationEvent "app00001" "application app00001 is rejected by scheduler"].
Proof.
  cbv zeta. split; [by vm_compute|].
  destruct (rejection_ends_in_Failed testClusterID submittedApp "app00001" [])
    as (_ & -> & -> & _); [by vm_compute|].
  split; by vm_compute.
Defined.

(** ** What never changes *)

Lemma setTaskGroups_frame tgs app :
  ∃ ask, setTaskGroups tgs app = with_placeholderAsk ask (with_taskGroups tgs app).
Proof.
  unfold setTaskGroups. generalize (with_taskGroups tgs app).
  induction tgs as [|tg groups IH]; intros app'; cbn [foldl].
  - exists (placeholderAsk app'). by destruct app'.
  - destruct (IH (with_placeholderAsk
                    (common.Add (placeholderAsk app')
                       (Some (common.GetTGResource (v1alpha1.MinResource tg)
                                (v1alpha1.MinMember tg)))) app')) as [ask ->].
    by exists ask.
Qed.

Section Invariants.
Context (ClusterID : string).
Context (sanityCheckBeforeScheduling : Task.t → option string).
Context (taskHandle : Task.t → string → Task.t * option string).

Local Abbreviation Schedule := (Schedule ClusterID sanityCheckBeforeScheduling taskHandle).

(** [Schedule] changes at most the tasks and the state. *)
Lemma Schedule_frame app :
  ∃ m s, (Schedule app).1 = with_taskMap m (with_sm s app).
Proof.
  assert (∀ app', app' = with_taskMap (taskMap app') (with_sm (sm app') app'))
    as Hid by (by intros []).
  unfold Schedule.
  destruct (String.eqb _ states.New).
  { pose proof (handle_keeps ClusterID
                  (λ a, with_taskMap (taskMap app) (with_sm (sm app) a))
                  (NewSubmitApplicationEvent (GetApplicationID app)) app
                  (λ _ _, eq_refl) (λ _ _, eq_refl)) as Hkeep.
    destruct (handle _ _ _) as [[err app'] effs]. cbn [fst snd] in *.
    exists (taskMap app'), (sm app').
    rewrite <- (Hid app) in Hkeep. rewrite <- Hkeep. by destruct app'. }
  destruct (String.eqb _ states.Accepted); [by exists (taskMap app), (sm app)|].
  destruct (String.eqb _ states.Reserving).
  { unfold scheduleTasks.
    destruct (scheduleTasks_touch_tasks_only sanityCheckBeforeScheduling taskHandle
                (λ t, Task.placeholder t) (GetNewTasks app) (app, [])) as [m ->].
    exists m, (sm app). by destruct app. }
  destruct (String.eqb _ states.Running); [|by exists (taskMap app), (sm app)].
  unfold scheduleTasks.
  destruct (scheduleTasks_touch_tasks_only sanityCheckBeforeScheduling taskHandle
              (λ t, negb (Task.placeholder t)) (GetNewTasks app) (app, [])) as [m ->].
  exists m, (sm app). by destruct app.
Qed.

(** X14: the identifier, queue, partition, user and tags of an application
    are fixed at construction, where the partition is the default one: no
    event, no scheduling round and no setter changes any of them. *)
Theorem identity_is_immutable (app : Application) :
  (∀ ev, identity (handle ClusterID ev app).1.2 = identity app) ∧
  identity (Schedule app).1 = identity app ∧
  (∀ task, identity (addTask task app) = identity app) ∧
  (∀ taskID, identity (removeTask taskID app).1.2 = identity app) ∧
  (∀ tgs, identity (setTaskGroups tgs app) = identity app) ∧
  (∀ policy, identity (setSchedulingPolicy policy app) = identity app) ∧
  (∀ ref, identity (setOwnReferences ref app) = identity app) ∧
  (∀ timeout, identity (SetPlaceholderTimeout timeout app) = identity app) ∧
  (∀ appID queueName user tags scheduler,
     identity (NewApplication appID queueName user tags scheduler)
     = (appID, queueName, constants.DefaultPartition, user, tags)).
Proof.
  split; [intros ev; by apply (handle_keeps ClusterID identity)|].
  split; [by destruct (Schedule_frame app) as (m & s & ->)|].
  split; [intros task; unfold addTask; by destruct (taskMap app !! _)|].
  split; [intros taskID; unfold removeTask; by destruct (taskMap app !! _)|].
  split; [intros tgs; by destruct (setTaskGroups_frame tgs app) as [ask ->]|].
  done.
Qed.

End Invariants.

Lemma withoutTermination_set term task :
  withoutTermination (Task.setTaskTerminationType term task) = withoutTermination task.
Proof. done. Qed.

Lemma afterCallback_keeps_tasks ClusterID event e (st : Application * Trace) :
  withoutTermination <$> taskMap (invoke (afterCallback ClusterID event) e st).1
  = withoutTermination <$> taskMap st.1.
Proof.
  unfold afterCallback.
  destruct (String.eqb event events.SubmitApplication); [done|].
  destruct (String.eqb event events.RecoverApplication); [done|].
  destruct (String.eqb event events.RejectApplication); [done|].
  destruct (String.eqb event events.CompleteApplication); [done|].
  destruct (String.eqb event events.FailApplication); [done|].
  destruct (String.eqb event events.UpdateReservation); [done|].
  destruct (String.eqb event events.ReleaseAppAllocation).
  { cbn [invoke fst]. unfold handleReleaseAppAllocationEvent.
    destruct (events.GetEventArgsAsStrings 2 (fsm.Args e)); [done|].
    cbn [fst taskMap with_taskMap]. rewrite <- map_fmap_compose.
    apply map_fmap_ext. intros key task _. cbn. by destruct (bool_decide _). }
  destruct (String.eqb event events.ReleaseAppAllocationAsk); [|done].
  cbn [invoke fst]. unfold handleReleaseAppAllocationAskEvent.
  destruct (events.GetEventArgsAsStrings 2 (fsm.Args e)) as [|eventArgs]; [done|].
  destruct (taskMap st.1 !! nth 0 eventArgs "") as [task|] eqn:Hlook; [|done].
  cbn [fst taskMap with_taskMap]. rewrite fmap_insert, withoutTermination_set.
  apply insert_id. by rewrite lookup_fmap, Hlook.
Qed.

(** X15: handling an event never adds or removes a task, and the only thing
    it ever changes in a task is the termination type: with the termination
    types erased, the task map after [handle] is the task map before.  In
    particular the state, the placeholder flag, the task group and the
    allocation identifier of every task are as before. *)
Theorem handle_changes_termination_types_only (ClusterID : string)
    (ev : ApplicationEvent) (app : Application) :
  withoutTermination <$> taskMap (handle ClusterID ev app).1.2
  = withoutTermination <$> taskMap app ∧
  dom (taskMap (handle ClusterID ev app).1.2) = dom (taskMap app) ∧
  ∀ state, (getTasks state (handle ClusterID ev app).1.2).*1 ≡ₚ (getTasks state app).*1.
Proof.
  assert (withoutTermination <$> taskMap (handle ClusterID ev app).1.2
          = withoutTermination <$> taskMap app) as Hsame.
  { destruct (fsm.transitions appEvents !! (GetEvent ev, GetApplicationState app))
      as [dst|] eqn:Hlook.
    - rewrite (handle_transitionTo ClusterID ev app dst Hlook). cbn [fst snd].
      unfold transitionTo.
      destruct (String.eqb (GetApplicationState app) dst);
        rewrite afterCallback_keeps_tasks; [done|].
      cbn [invoke fst enterState]. unfold enterCallback.
      by destruct (String.eqb dst states.Reserving).
    - by rewrite (handle_illegal ClusterID ev app Hlook). }
  split; [exact Hsame|]. split.
  - by rewrite <- (dom_fmap_L withoutTermination), Hsame, dom_fmap_L.
  - intros state. rewrite !getTasks_Permutation.
    set (m' := taskMap (handle ClusterID ev app).1.2) in *.
    set (m := taskMap app) in *.
    assert (∀ m0 : gmap string Task.t,
              (filter (λ kt : string * Task.t, Task.GetTaskState kt.2 = state)
                      (map_to_list m0)).*1
              ≡ₚ (filter (λ kt : string * Task.t, Task.GetTaskState kt.2 = state)
                         (map_to_list (withoutTermination <$> m0))).*1) as Herase.
    { intros m0. rewrite map_to_list_fmap.
      generalize (map_to_list m0). intros l.
      induction l as [|[key task] l IH]; [done|].
      rewrite fmap_cons, !filter_cons. cbn [snd prod_map fst].
      change (Task.GetTaskState (withoutTermination task))
        with (Task.GetTaskState task).
      destruct (decide (Task.GetTaskState task = state));
        rewrite ?fmap_cons; cbn [fst]; by rewrite IH. }
    by rewrite (Herase m'), (Herase m), Hsame.
Qed.

(** ** What a scheduling round does to the application *)

Section Rounds.
Context (ClusterID : string).
Context (sanityCheckBeforeScheduling : Task.t → option string).
Context (taskHandle : Task.t → string → Task.t * option string).

Local Abbreviation Schedule := (Schedule ClusterID sanityCheckBeforeScheduling taskHandle).
Local Abbreviation scheduleTask := (scheduleTask sanityCheckBeforeScheduling taskHandle).
Local Abbreviation scheduleTasks := (scheduleTasks sanityCheckBeforeScheduling taskHandle).

Lemma scheduleTasks_stay_with_tasks cond tasks acc :
  Forall staysWithTasks acc.2 →
  Forall staysWithTasks (foldl (scheduleTask cond) acc tasks).2 ∧
  sm (foldl (scheduleTask cond) acc tasks).1 = sm acc.1.
Proof.
  revert acc. induction tasks as [|[key task] tasks IH]; intros acc Hacc;
    cbn [foldl]; [done|].
  assert (Forall staysWithTasks (scheduleTask cond acc (key, task)).2 ∧
          sm (scheduleTask cond acc (key, task)).1 = sm acc.1) as [Hstep Hsm].
  { unfold scheduleTask. destruct (cond task); [|done].
    destruct (sanityCheckBeforeScheduling task).
    - cbn [fst snd]. split; [|done]. apply Forall_app. split; [done|].
      by repeat constructor.
    - destruct (taskHandle task events.InitTask) as [task' handleErr].
      cbn [fst snd]. split; [|done]. rewrite !Forall_app. split; [done|].
      split; [by repeat constructor|]. destruct handleErr; by repeat constructor. }
  destruct (IH _ Hstep) as [IHt IHsm]. split; [done|]. by rewrite IHsm.
Qed.

Lemma stays_with_tasks_silent trace :
  Forall staysWithTasks trace →
  updates trace = [] ∧ dispatched trace = [] ∧ goroutines trace = [].
Proof.
  induction 1 as [|eff trace Heff _ IH]; [done|].
  destruct IH as (Hu & Hd & Hg).
  destruct eff; try done; cbn; by rewrite ?Hu, ?Hd, ?Hg.
Qed.

(** X16: a scheduling round changes the state of the application only from
    New, to Submitted.  In every other state the state stays; outside New,
    Reserving and Running the application is not changed at all.  Only the
    round in New talks to the scheduler, only the rounds in New and Accepted
    dispatch events, no round starts a goroutine, and only the rounds in
    Reserving and Running touch tasks. *)
Theorem Schedule_effects_by_state (app : Application) :
  let r := Schedule app in
  let state := GetApplicationState app in
  (state = states.New → GetApplicationState r.1 = states.Submitted) ∧
  (state ≠ states.New → GetApplicationState r.1 = state ∧ updates r.2 = []) ∧
  (state ∉ [states.New; states.Reserving; states.Running] → r.1 = app) ∧
  (state ∉ [states.New; states.Accepted] → dispatched r.2 = []) ∧
  (state ∉ [states.Reserving; states.Running] → touched r.2 = []) ∧
  goroutines r.2 = [].
Proof.
  cbv zeta.
  assert (∀ cond, let r := scheduleTasks cond app in
                  sm r.1 = sm app ∧ updates r.2 = [] ∧ dispatched r.2 = []
                  ∧ goroutines r.2 = []) as Hround.
  { intros cond. cbv zeta. unfold scheduleTasks.
    destruct (scheduleTasks_stay_with_tasks cond (GetNewTasks app) (app, []))
      as [Hstay Hsm]; [done|].
    split; [done|]. by apply stays_with_tasks_silent. }
  unfold Schedule.
  destruct (String.eqb_spec (GetApplicationState app) states.New) as [HNew|HNew].
  { unfold GetApplicationID, NewSubmitApplicationEvent, NewSimpleApplicationEvent.
    rewrite handle_Submit_New by done. cbn [fst snd]. rewrite HNew, app_nil_r.
    split; [done|]. split; [done|].
    split; [intros Hnot; destruct Hnot; apply elem_of_cons; by left|].
    split; [intros Hnot; destruct Hnot; apply elem_of_cons; by left|].
    unfold handleSubmitApplicationEvent. cbn [snd]. split.
    - intros _. unfold touched, submitted. cbn.
      by destruct (schedulerAPI _ _).
    - change (goroutines (?a :: ?b :: ?t)) with (goroutines t).
      apply goroutines_submitted. }
  split; [done|].
  destruct (String.eqb_spec (GetApplicationState app) states.Accepted) as [HAcc|HAcc].
  { unfold postAppAccepted. cbn [fst snd].
    split; [split; [done|by destruct (_ && _)]|].
    split; [done|].
    split; [intros Hnot; destruct Hnot; rewrite HAcc, !elem_of_cons; auto|].
    split; by destruct (_ && _). }
  destruct (String.eqb_spec (GetApplicationState app) states.Reserving) as [HRes|HRes].
  { destruct (Hround (λ t, Task.placeholder t)) as (Hsm & Hu & Hd & Hg).
    split; [done|].
    split; [intros Hnot; destruct Hnot; rewrite HRes, !elem_of_cons; auto|].
    split; [done|].
    split; [intros Hnot; destruct Hnot; rewrite HRes, !elem_of_cons; auto|done]. }
  destruct (String.eqb_spec (GetApplicationState app) states.Running) as [HRun|HRun].
  { destruct (Hround (λ t, negb (Task.placeholder t))) as (Hsm & Hu & Hd & Hg).
    split; [done|].
    split; [intros Hnot; destruct Hnot; rewrite HRun, !elem_of_cons; auto|].
    split; [done|].
    split; [intros Hnot; destruct Hnot; rewrite HRun, !elem_of_cons; auto|done]. }
  by cbn [fst snd].
Qed.

(** The task a round leaves under a key: the task as its own state machine
    left it when the round initialised it, the task as it was otherwise. *)
Lemma scheduleTasks_fold_result cond tasks acc key :
  NoDup tasks.*1 →
  let r := foldl (scheduleTask cond) acc tasks in
  (∀ task, (key, task) ∈ tasks → cond task = true →
           sanityCheckBeforeScheduling task = None →
           taskMap r.1 !! key = Some (taskHandle task events.InitTask).1) ∧
  ((∀ task, (key, task) ∈ tasks →
            ¬ (cond task = true ∧ sanityCheckBeforeScheduling task = None)) →
   taskMap r.1 !! key = taskMap acc.1 !! key).
Proof.
  revert acc. induction tasks as [|[key0 task0] tasks IH]; intros acc Hdistinct;
    cbn [foldl].
  - split; [by intros task ?%elem_of_nil|done].
  - rewrite fmap_cons in Hdistinct. apply NoDup_cons in Hdistinct as [Hfresh Hdistinct].
    destruct (IH (scheduleTask cond acc (key0, task0)) Hdistinct) as [IHinit IHkeep].
    cbv zeta in *.
    assert (taskMap (scheduleTask cond acc (key0, task0)).1 !! key
            = if bool_decide (key = key0 ∧ cond task0 = true ∧
                              sanityCheckBeforeScheduling task0 = None)
              then Some (taskHandle task0 events.InitTask).1
              else taskMap acc.1 !! key) as Hstep.
    { unfold scheduleTask. destruct (cond task0).
      - destruct (sanityCheckBeforeScheduling task0) as [err|].
        + rewrite bool_decide_eq_false_2 by (by intros (_ & _ & ?)). done.
        + destruct (taskHandle task0 events.InitTask) as [task' handleErr].
          cbn [fst taskMap with_taskMap]. rewrite lookup_insert.
          destruct (decide (key0 = key)) as [->|Hne].
          * by rewrite bool_decide_eq_true_2.
          * rewrite bool_decide_eq_false_2; [done|]. by intros [-> _].
      - rewrite bool_decide_eq_false_2 by (by intros (_ & ? & _)). done. }
    split.
    + intros task Hin Hcond Hcheck. apply elem_of_cons in Hin as [[= -> ->]|Hin].
      * rewrite IHkeep, Hstep; [by rewrite bool_decide_eq_true_2|].
        intros task Hin. destruct Hfresh.
        apply list_elem_of_fmap. by exists (key0, task).
      * by apply IHinit.
    + intros Hnone. rewrite IHkeep, Hstep.
      * rewrite bool_decide_eq_false_2; [done|].
        intros (-> & Hcond & Hcheck). apply (Hnone task0); [by left|done].
      * intros task Hin. apply Hnone. by right.
Qed.

(** X17: a task is initialised once.  When the task's own state machine
    leaves the New state on InitTask, a task that a round has initialised is
    not touched by the next round; the next round of the same phase only
    comes back to tasks whose precondition check failed, which are still as
    they were. *)
Theorem next_round_only_retries_failed_checks (app : Application) (key : string) :
  GetApplicationState app ∈ [states.Reserving; states.Running] →
  (∀ task, Task.state (taskHandle task events.InitTask).1 ≠ events.States.Task.New) →
  let first := Schedule app in
  let second := Schedule first.1 in
  (TaskHandle key events.InitTask ∈ first.2 → key ∉ touched second.2) ∧
  (key ∈ touched second.2 →
     ∃ task, taskMap app !! key = Some task ∧
             taskMap first.1 !! key = Some task ∧
             Task.state task = events.States.Task.New ∧
             sanityCheckBeforeScheduling task ≠ None).
Proof.
  intros Hstate Hleaves. cbv zeta.
  assert (∃ cond, Schedule app = scheduleTasks cond app ∧
                  (∀ app', GetApplicationState app' = GetApplicationState app →
                           Schedule app' = scheduleTasks cond app')) as (cond & -> & Hnext).
  { apply elem_of_cons in Hstate as [Hs|Hstate];
      [|apply list_elem_of_singleton in Hstate as Hs].
    - exists (λ t, Task.placeholder t).
      split; [|intros app' Happ']; unfold Schedule; by rewrite ?Happ', Hs.
    - exists (λ t, negb (Task.placeholder t)).
      split; [|intros app' Happ']; unfold Schedule; by rewrite ?Happ', Hs. }
  set (first := scheduleTasks cond app).
  assert (GetApplicationState first.1 = GetApplicationState app) as Hsame.
  { unfold first, scheduleTasks, GetApplicationState.
    by destruct (scheduleTasks_stay_with_tasks cond (GetNewTasks app) (app, []))
      as [_ ->]. }
  rewrite (Hnext first.1 Hsame).
  assert (NoDup (GetNewTasks app).*1) as Hdistinct.
  { unfold GetNewTasks. rewrite getTasks_Permutation.
    apply (sublist_NoDup _ (map_to_list (taskMap app)).*1).
    - apply NoDup_fst_map_to_list.
    - apply fmap_sublist, sublist_filter. }
  destruct (scheduleTasks_fold_result cond (GetNewTasks app) (app, []) key Hdistinct)
    as [Hinit Hkeep]. cbv zeta in Hinit, Hkeep. cbn [fst] in Hkeep.
  fold (scheduleTasks cond app) in Hinit, Hkeep. fold first in Hinit, Hkeep.
  destruct (scheduleTasks_spec ClusterID sanityCheckBeforeScheduling taskHandle cond
              first.1 key)
    as [Hsecond _]. cbv zeta in Hsecond.
  assert (key ∈ touched (scheduleTasks cond first.1).2 →
          ∃ task, taskMap app !! key = Some task ∧
                  taskMap first.1 !! key = Some task ∧
                  Task.state task = events.States.Task.New ∧
                  cond task = true ∧
                  sanityCheckBeforeScheduling task ≠ None) as Hretry.
  { intros (task' & Hlook' & Hnew' & Hcond')%Hsecond.
    destruct (taskMap app !! key) as [task|] eqn:Hlook.
    - destruct (decide (Task.state task = events.States.Task.New ∧ cond task = true ∧
                        sanityCheckBeforeScheduling task = None))
        as [(Hnew & Hcond & Hcheck)|Hnot].
      + rewrite (Hinit task) in Hlook'; [|by apply elem_of_getTasks|done|done].
        injection Hlook' as <-. by destruct (Hleaves task).
      + rewrite Hkeep in Hlook'.
        * injection Hlook' as <-. exists task. repeat split; try done.
          -- rewrite Hkeep; [done|].
             intros task0 [Hl0 Hs0]%elem_of_getTasks [Hc0 Hk0].
             rewrite Hl0 in Hlook. injection Hlook as ->. tauto.
          -- intros Hcheck. tauto.
        * intros task0 [Hl0 Hs0]%elem_of_getTasks [Hc0 Hk0].
          rewrite Hl0 in Hlook. injection Hlook as ->. tauto.
    - rewrite Hkeep in Hlook'; [done|].
      intros task0 [Hl0 _]%elem_of_getTasks. by rewrite Hl0 in Hlook. }
  split.
  - intros Hhandled Htouched.
    destruct (Hretry Htouched) as (task & Hlook & _ & Hnew & Hcond & Hcheck).
    (* the round recorded TaskHandle only after a check that passed *)
    revert Hhandled. unfold first, scheduleTasks.
    assert (∀ tasks acc,
              (∀ t, (key, t) ∈ tasks → sanityCheckBeforeScheduling t ≠ None) →
              TaskHandle key events.InitTask ∈ (foldl (scheduleTask cond) acc tasks).2 →
              TaskHandle key events.InitTask ∈ acc.2) as Hfold.
    { induction tasks as [|[key0 task0] tasks IH]; intros acc Hchecks; cbn [foldl];
        [done|].
      intros Hin. apply IH in Hin; [|intros t Ht; apply Hchecks; by right].
      revert Hin. unfold scheduleTask. destruct (cond task0); [|done].
      destruct (sanityCheckBeforeScheduling task0) as [err|] eqn:Hcheck0.
      - cbn [snd]. rewrite elem_of_app. intros [Hin|Hin]; [done|].
        repeat (apply elem_of_cons in Hin as [Hin|Hin]; [discriminate Hin|]).
        by apply elem_of_nil in Hin.
      - destruct (taskHandle task0 events.InitTask) as [task' handleErr].
        cbn [snd]. rewrite !elem_of_app. intros [Hin|[Hin|Hin]]; [done| |].
        + apply elem_of_cons in Hin as [Hin|Hin]; [discriminate Hin|].
          apply list_elem_of_singleton in Hin. injection Hin as ->.
          destruct (Hchecks task0); [by left|done].
        + destruct handleErr; [|by apply elem_of_nil in Hin].
          apply list_elem_of_singleton in Hin. discriminate Hin. }
    intros Hin. apply Hfold in Hin; [by apply elem_of_nil in Hin|].
    intros t [Hl _]%elem_of_getTasks. rewrite Hl in Hlook. by injection Hlook as ->.
  - intros Htouched.
    destruct (Hretry Htouched) as (task & ? & ? & ? & ? & ?). eauto.
Qed.

End Rounds.

(** On the reservation fixture: the placeholder that was initialised in the
    first round is left alone by the second, which tries the unready one
    again. *)
Lemma next_round_on_reservingApp :
  let first := Schedule testClusterID mockSanityCheck mockTaskHandle reservingApp in
  let second := Schedule testClusterID mockSanityCheck mockTaskHandle first.1 in
  GetApplicationState reservingApp ∈ [states.Reserving; states.Running] ∧
  (∀ task, Task.state (mockTaskHandle task events.InitTask).1 ≠ events.States.Task.New) ∧
  TaskHandle "ph-2" events.InitTask ∈ first.2 ∧
  ("ph-2" ∉ touched second.2) ∧
  touched second.2 = ["task-unready"; "task-unready"].
Proof.
  cbv zeta.
  assert (GetApplicationState reservingApp ∈ [states.Reserving; states.Running])
    as Hstate by (apply (bool_decide_unpack _); by vm_compute).
  assert (∀ task, Task.state (mockTaskHandle task events.InitTask).1
                  ≠ events.States.Task.New) as Hleaves by done.
  assert (TaskHandle "ph-2" events.InitTask
            ∈ (Schedule testClusterID mockSanityCheck mockTaskHandle reservingApp).2)
    as Hhandled.
  { destruct Schedule_reservingApp_run as (_ & -> & _).
    apply elem_of_cons. right. apply elem_of_cons. by left. }
  split; [exact Hstate|]. split; [exact Hleaves|]. split; [exact Hhandled|].
  split; [|by vm_compute].
  exact (proj1 (next_round_only_retries_failed_checks testClusterID mockSanityCheck
                  mockTaskHandle reservingApp "ph-2" Hstate Hleaves) Hhandled).
Defined.

(** ** The placeholder timeout *)

Lemma wrap64_in_range z : wrap64 z = z ↔ - 2 ^ 63 ≤ z < 2 ^ 63.
Proof.
  unfold wrap64. split.
  - intros Heq. pose proof (Z.mod_pos_bound (z + 2 ^ 63) (2 ^ 64) ltac:(lia)). lia.
  - intros Hrange. rewrite Z.mod_small by lia. lia.
Qed.

(** X18: the timeout set with [SetPlaceholderTimeout], in seconds, reaches
    the scheduler in milliseconds, on submission and on recovery alike.  The
    value sent is the timeout times one thousand exactly when that product
    fits a signed 64-bit integer; beyond that it is the product wrapped
    around. *)
Theorem timeout_is_sent_in_milliseconds (ClusterID : string)
    (app : Application) (timeout : Z) :
  GetApplicationState app = states.New →
  let app' := SetPlaceholderTimeout timeout app in
  let submit := handle ClusterID (NewSubmitApplicationEvent (applicationID app)) app' in
  let recover := TriggerAppRecovery ClusterID app' in
  timeoutsSent submit.2 = [wrap64 (timeout * 1000)] ∧
  timeoutsSent recover.2 = [wrap64 (timeout * 1000)] ∧
  (timeoutsSent submit.2 = [timeout * 1000] ↔ - 2 ^ 63 ≤ timeout * 1000 < 2 ^ 63).
Proof.
  intros Hstate. cbv zeta.
  unfold TriggerAppRecovery, NewSubmitApplicationEvent, NewSimpleApplicationEvent.
  rewrite handle_Submit_New, handle_Recover_New by done.
  cbn [snd handleSubmitApplicationEvent handleRecoverApplicationEvent].
  unfold timeoutsSent.
  change (updates (?a :: ?b :: ?t)) with (updates t).
  rewrite !updates_submitted. cbn.
  split; [done|]. split; [done|].
  rewrite <- wrap64_in_range. split; [by intros [= ->]|by intros ->].
Qed.

(** Three thousand seconds are three million milliseconds; a timeout of
    2^63 / 1000 seconds, rounded up, comes out negative. *)
Lemma timeout_of_app00001 :
  GetApplicationState app00001 = states.New ∧
  timeoutsSent
    (handle testClusterID (NewSubmitApplicationEvent "app00001")
       (SetPlaceholderTimeout 3000 app00001)).2 = [3000000] ∧
  timeoutsSent
    (handle testClusterID (NewSubmitApplicationEvent "app00001")
       (SetPlaceholderTimeout 9223372036854776 app00001)).2
  = [-9223372036854775616].
Proof.
  split; [reflexivity|].
  destruct (timeout_is_sent_in_milliseconds testClusterID app00001 3000 eq_refl)
    as (Hsent & _).
  destruct (timeout_is_sent_in_milliseconds testClusterID app00001 9223372036854776
              eq_refl) as (Hwrapped & _).
  split; [exact Hsent | exact Hwrapped].
Defined.

(** ** The gang path from submission to reservation *)

Lemma handle_Accept ClusterID appID args app :
  GetApplicationState app ∈ [states.Submitted; states.Recovering] →
  handle ClusterID
    {| GetApplicationID_ev := appID; GetEvent := events.AcceptApplication;
       GetArgs := args |} app
  = (None, SetState states.Accepted app, [Log "debug" "shim app state transition"]).
Proof.
  destruct app. simpl. intros Hin.
  repeat (apply elem_of_cons in Hin as [->|Hin]; [reflexivity|]).
  by apply elem_of_nil in Hin.
Qed.

Lemma handle_TryReserve_Accepted ClusterID appID args app :
  GetApplicationState app = states.Accepted →
  handle ClusterID
    {| GetApplicationID_ev := appID; GetEvent := events.TryReserve;
       GetArgs := args |} app
  = (None, SetState states.Reserving app,
     [Go (createAppPlaceholders (applicationID app));
      Log "debug" "shim app state transition"]).
Proof. destruct app. simpl. intros ->. reflexivity. Qed.

(** X19: the gang path of [TestTryReserve].  A new application with task
    groups and no Allocated task is submitted by the first scheduling round;
    once accepted, the next round dispatches TryReserve, twice; the first
    delivery moves the application to Reserving and starts the creation of
    the placeholders, once; the second delivery is refused and changes
    nothing, so the creation is not started again. *)
Theorem gang_path_to_Reserving (ClusterID : string)
    (sanityCheckBeforeScheduling : Task.t → option string)
    (taskHandle : Task.t → string → Task.t * option string)
    (app : Application) :
  GetApplicationState app = states.New →
  taskGroups app ≠ [] →
  countTasks (λ t, Task.state t = events.States.Task.Allocated) app = 0%nat →
  let Schedule := Schedule ClusterID sanityCheckBeforeScheduling taskHandle in
  let tryReserve := NewSimpleApplicationEvent (applicationID app) events.TryReserve in
  let submitted := (Schedule app).1 in
  let accepted :=
    (handle ClusterID
       (NewSimpleApplicationEvent (applicationID app) events.AcceptApplication)
       submitted).1.2 in
  let first := handle ClusterID tryReserve accepted in
  let second := handle ClusterID tryReserve first.1.2 in
  GetApplicationState submitted = states.Submitted ∧
  GetApplicationState accepted = states.Accepted ∧
  Schedule accepted
  = (accepted,
     [Log "debug" "postAppAccepted on cached app";
      Log "info" "app has taskGroups defined, trying to reserve resources for gang members";
      Dispatch tryReserve; Dispatch tryReserve]) ∧
  first.1.1 = None ∧
  GetApplicationState first.1.2 = states.Reserving ∧
  goroutines first.2 = [createAppPlaceholders (applicationID app)] ∧
  second.1.1 ≠ None ∧ second.1.2 = first.1.2 ∧ second.2 = [].
Proof.
  intros Hstate Hgroups Hnone. cbv zeta.
  assert ((Schedule ClusterID sanityCheckBeforeScheduling taskHandle app).1
          = SetState states.Submitted app) as ->.
  { unfold Schedule. rewrite Hstate. cbn [String.eqb Ascii.eqb Bool.eqb states.New].
    unfold GetApplicationID, NewSubmitApplicationEvent, NewSimpleApplicationEvent.
    by rewrite handle_Submit_New by done. }
  unfold NewSimpleApplicationEvent.
  rewrite handle_Accept by (apply elem_of_cons; by left). cbn [fst snd].
  set (accepted := SetState states.Accepted (SetState states.Submitted app)).
  split; [done|]. split; [done|].
  split.
  { rewrite Schedule_Accepted by done. unfold postAppAccepted.
    rewrite length_getTasks.
    change (countTasks _ accepted)
      with (countTasks (λ t, Task.state t = events.States.Task.Allocated) app).
    rewrite Hnone. change (taskGroups accepted) with (taskGroups app).
    rewrite bool_decide_eq_true_2 by (by destruct (taskGroups app)).
    by rewrite bool_decide_eq_true_2. }
  change (applicationID app) with (applicationID accepted).
  rewrite handle_TryReserve_Accepted by done. cbn [fst snd].
  split; [done|]. split; [done|]. split; [done|].
  rewrite handle_illegal by (by vm_compute). done.
Qed.

Lemma gang_path_of_gangApp :
  let accepted :=
    (handle testClusterID (NewSimpleApplicationEvent "app00001" events.AcceptApplication)
       (Schedule testClusterID mockSanityCheck mockTaskHandle gangApp).1).1.2 in
  GetApplicationState gangApp = states.New ∧
  taskGroups gangApp ≠ [] ∧
  dispatched (Schedule testClusterID mockSanityCheck mockTaskHandle accepted).2
  = [NewSimpleApplicationEvent "app00001" events.TryReserve;
     NewSimpleApplicationEvent "app00001" events.TryReserve].
Proof.
  cbv zeta. split; [by vm_compute|]. split; [by vm_compute|].
  destruct (gang_path_to_Reserving testClusterID mockSanityCheck mockTaskHandle gangApp)
    as (_ & _ & Hround & _); [by vm_compute..|].
  cbv zeta in Hround.
  change (applicationID gangApp) with "app00001" in Hround.
  by rewrite Hround.
Defined.

(** ** Release events with malformed arguments *)

(** X20: a release event, of either kind, whose arguments cannot be parsed
    into two strings still completes its transition when the event is legal:
    an application in Accepted or Reserving that receives such a
    ReleaseAllocationAsk ends up in Running.  The callback logs the failure
    and neither changes a task nor requests the deletion of a pod. *)
Theorem malformed_release_changes_no_task (ClusterID : string)
    (app : Application) (ev : ApplicationEvent) :
  GetEvent ev ∈ [events.ReleaseAppAllocation; events.ReleaseAppAllocationAsk] →
  canHandle ClusterID ev app = true →
  (∀ eventArgs, events.GetEventArgsAsStrings 2 (GetArgs ev) ≠ inr eventArgs) →
  let r := handle ClusterID ev app in
  r.1.1 = None ∧
  r.1.2 = SetState (if String.eqb (GetApplicationState app) states.Failed
                    then states.Failed else states.Running) app ∧
  deletions r.2 = [] ∧
  Log "error" "fail to parse event arg" ∈ r.2.
Proof.
  intros Hev Hcan Hparse. cbv zeta.
  unfold canHandle, fsm.Can in Hcan. apply bool_decide_eq_true in Hcan as [dst Hlook].
  cbn [fsm.events appFSM] in Hlook.
  rewrite (handle_transitionTo ClusterID ev app dst Hlook). cbn [fst snd].
  apply listed_iff in Hlook. unfold listed in Hlook.
  assert (Forall (λ t : string * string * string,
                    t.1.1 ∈ [events.ReleaseAppAllocation; events.ReleaseAppAllocationAsk] →
                    t.2 = if String.eqb t.1.2 states.Failed
                          then states.Failed else states.Running)
                 pairs_4_2) as Hall.
  { apply (bool_decide_unpack _). by vm_compute. }
  rewrite Forall_forall in Hall. pose proof (Hall _ Hlook Hev) as Hdst.
  cbn [fst snd] in Hdst. rewrite <- Hdst. clear Hall Hlook Hdst.
  assert (∀ st : Application * Trace,
            (invoke (afterCallback ClusterID (GetEvent ev))
                    (fsmEvent (GetEvent ev) (GetApplicationState app) dst (GetArgs ev))
                    st)
            = (st.1, st.2 ++ [Log "error" "fail to parse event arg"])) as Hafter.
  { intros st.
    apply elem_of_cons in Hev as [->|Hev];
      [change (afterCallback ClusterID events.ReleaseAppAllocation)
         with (Some handleReleaseAppAllocationEvent)
      |apply list_elem_of_singleton in Hev as ->;
       change (afterCallback ClusterID events.ReleaseAppAllocationAsk)
         with (Some handleReleaseAppAllocationAskEvent)];
      cbn [invoke];
      [unfold handleReleaseAppAllocationEvent
      |unfold handleReleaseAppAllocationAskEvent];
      unfold fsmEvent; cbn [fsm.Args];
      (destruct (events.GetEventArgsAsStrings 2 (GetArgs ev)) as [err|eventArgs]
         eqn:Hargs; [done|by destruct (Hparse eventArgs)]). }
  unfold transitionTo.
  destruct (String.eqb_spec (GetApplicationState app) dst) as [Hsame|Hmove].
  - rewrite Hafter. cbn [fst snd].
    split; [done|]. split; [by rewrite <- Hsame; destruct app|].
    split; [done|]. apply elem_of_cons. by left.
  - cbn [invoke fst snd enterState]. unfold enterCallback.
    destruct (String.eqb dst states.Reserving); cbn [invoke fst snd onReserving];
      rewrite Hafter; cbn [fst snd];
      (split; [done|]); (split; [done|]); (split; [done|]);
      rewrite !elem_of_app, !elem_of_cons; auto.
Qed.

(** An application in the reservation phase is moved to Running by a
    ReleaseAllocationAsk event that carries no argument at all. *)
Lemma malformed_release_on_reservingApp :
  let ev := NewSimpleApplicationEvent "app00001" events.ReleaseAppAllocationAsk in
  canHandle testClusterID ev reservingApp = true ∧
  events.GetEventArgsAsStrings 2 (GetArgs ev) = inl "invalid length of arguments" ∧
  GetApplicationState (handle testClusterID ev reservingApp).1.2 = states.Running ∧
  taskMap (handle testClusterID ev reservingApp).1.2 = taskMap reservingApp.
Proof.
  cbv zeta. split; [by vm_compute|]. split; [by vm_compute|].
  destruct (malformed_release_changes_no_task testClusterID reservingApp
              (NewSimpleApplicationEvent "app00001" events.ReleaseAppAllocationAsk))
    as (_ & -> & _).
  - apply elem_of_cons. right. apply elem_of_cons. by left.
  - by vm_compute.
  - intros eventArgs. by vm_compute.
  - split; reflexivity.
Defined.
(** ** The counts of the reservation handler *)









(** ** What else is dispatched in the reservation phase *)




(** ** The completion of the reservation *)



